(** * ted: tolerant edit distance evaluation tool

    A shallow embedding of [binaries/ted.cpp], the command-line driver that
    wires the image-stack readers, the [ErrorReport] process node and the
    output writers together, followed by models of the evaluation core the
    driver consumes and the properties proved about both. *)

From Stdlib Require Import ZArith QArith Lia.
From stdpp Require Import base strings pretty list gmap.

Open Scope string_scope.

(** ** Characters the driver writes *)

(** ["\t"], written after every label of a listing line. *)
Definition tab : string := String (Ascii.ascii_of_nat 9) "".

(** [std::endl]: the end-of-line character (the flush is not modelled). *)
Definition endl : string := String (Ascii.ascii_of_nat 10) "".

(** ** Exceptions

    Every exception below derives from the project-wide [Exception] class,
    which is what the outer handler of [main] catches. *)
Inductive exn : Type :=
  | NoSuchOutput                (* pipeline::ProcessNode::NoSuchOutput *)
  | ShapeMismatch               (* volumes of different dimensions *)
  | UsageError (msg : string)   (* ted.cpp:140 *)
  | OtherError (msg : string).  (* any other Exception of a collaborator *)

Definition is_NoSuchOutput (e : exn) : bool :=
  match e with NoSuchOutput => true | _ => false end.

(** What a C++ [throw] carries in a run of ted.cpp: an [Exception] of the
    project, or an exception of another library, such as the
    [std::runtime_error] vigra raises on a file or dataset it cannot read
    (ted.cpp:115-118).  The latter does not derive from [Exception]: no
    handler of ted.cpp catches it. *)
Inductive thrown : Type :=
  | Exception (e : exn)
  | runtime_error (what : string).

(** A result of the project's own code, which raises [Exception]s only. *)
Definition raised {A} (r : exn + A) : thrown + A :=
  match r with
  | inl e => inl (Exception e)
  | inr a => inr a
  end.

(** A result of vigra, which raises [std::runtime_error]s only; the
    failure is given by its [what()]. *)
Definition raised_by_vigra {A} (r : string + A) : thrown + A :=
  match r with
  | inl what => inl (runtime_error what)
  | inr a => inr a
  end.

(** How the process ends: [main] returns a status, or an exception leaves
    [main] and [std::terminate] aborts the process. *)
Inductive Outcome : Type :=
  | Exit (status : Z)
  | Terminate (what : string).

(** ** Program options (ted.cpp:23-85)

    A [util::ProgramOption] is observed by the driver in three ways: its
    conversion to [bool] (was the option given), [as<bool>()], and its
    conversion to [std::string]. *)
Record ProgramOption : Type := {
  isSet : bool;
  asBool : bool;
  asString : string
}.

Record Options : Type := {
  optionGroundTruth : ProgramOption;
  optionExtractGroundTruthLabels : ProgramOption;
  optionExportGroundtruth : ProgramOption;
  optionReconstruction : ProgramOption;
  optionPlotFile : ProgramOption;
  optionPlotFileHeader : ProgramOption;
  optionTedErrorFiles : ProgramOption;
  optionReportVoi : ProgramOption;
  optionReportRand : ProgramOption;
  optionReportDetectionOverlap : ProgramOption;
  optionReportTed : ProgramOption;
  optionIgnoreBackground : ProgramOption;
  optionGrowSlices : ProgramOption
}.

(** [ErrorReport::Parameters], filled in at ted.cpp:176-183. *)
Record Parameters : Type := {
  headerOnly : bool;
  reportTed : bool;
  reportRand : bool;
  reportVoi : bool;
  reportDetectionOverlap : bool;
  ignoreBackground : bool;
  growSlices : bool
}.

Definition setupParameters (o : Options) : Parameters := {|
  headerOnly := asBool (optionPlotFileHeader o);
  reportTed := asBool (optionReportTed o);
  reportRand := asBool (optionReportRand o);
  reportVoi := asBool (optionReportVoi o);
  reportDetectionOverlap := asBool (optionReportDetectionOverlap o);
  ignoreBackground := asBool (optionIgnoreBackground o);
  growSlices := asBool (optionGrowSlices o)
|}.

(** ** The interface of [TolerantEditDistanceErrors] used by the driver
    (ted.cpp:246-269).  Containers are given in iteration order. *)
Record TolerantEditDistanceErrors (label : Type) : Type := {
  getSplitLabels : list label;
  getSplits : label -> list label;
  getMergeLabels : list label;
  getMerges : label -> list label;
  hasBackgroundLabel : bool;
  getFalsePositives : list label;
  getFalseNegatives : list label
}.
Arguments getSplitLabels {label} _.
Arguments getSplits {label} _ _.
Arguments getMergeLabels {label} _.
Arguments getMerges {label} _ _.
Arguments hasBackgroundLabel {label} _.
Arguments getFalsePositives {label} _.
Arguments getFalseNegatives {label} _.

(** ** The [ErrorReport] process node as the driver sees it

    One field per named output requested in ted.cpp; the inputs are the two
    stacks set with [setInput].  Requesting an output either yields its
    value or raises an [Exception] of the project; the update the pipeline
    runs when the value is first used is folded into the request. *)
Record ErrorReportNode (ImageStack label : Type) : Type := {
  (* "error report header" *)
  out_header : Parameters -> exn + string;
  (* "ted corrected reconstruction" *)
  out_corrected : Parameters -> ImageStack -> ImageStack -> exn + ImageStack;
  (* "human readable error report" *)
  out_human : Parameters -> ImageStack -> ImageStack -> exn + string;
  (* "ted errors" *)
  out_errors : Parameters -> ImageStack -> ImageStack ->
               exn + TolerantEditDistanceErrors label;
  (* "error report" *)
  out_line : Parameters -> ImageStack -> ImageStack -> exn + string
}.
Arguments out_header {ImageStack label} _ _.
Arguments out_corrected {ImageStack label} _ _ _ _.
Arguments out_human {ImageStack label} _ _ _ _.
Arguments out_errors {ImageStack label} _ _ _ _.
Arguments out_line {ImageStack label} _ _ _ _.

(** ** Collaborators outside ted.cpp *)
Record Env (ImageStack label : Type) : Type := {
  (* built with HAVE_HDF5 *)
  have_hdf5 : bool;
  (* vigra::HDF5File and the slices of the dataset: file name, dataset;
     a failure is vigra's, given by its what() *)
  read_hdf5 : string -> string -> string + ImageStack;
  (* ImageStackDirectoryReader, which reads its images with vigra *)
  read_directory : string -> thrown + ImageStack;
  (* ExtractGroundTruthLabels *)
  extract_labels : ImageStack -> ImageStack;
  (* boost::filesystem::path::stem and operator/= *)
  stem : string -> string;
  path_append : string -> string -> string;
  (* operator<< of an output stream on a float label *)
  show_label : label -> string;
  (* whether an output file stream on this path opens *)
  can_open : string -> bool;
  report : ErrorReportNode ImageStack label
}.
Arguments have_hdf5 {ImageStack label} _.
Arguments read_hdf5 {ImageStack label} _ _ _.
Arguments read_directory {ImageStack label} _ _.
Arguments extract_labels {ImageStack label} _ _.
Arguments stem {ImageStack label} _ _.
Arguments path_append {ImageStack label} _ _ _.
Arguments show_label {ImageStack label} _ _.
Arguments can_open {ImageStack label} _ _.
Arguments report {ImageStack label} _.

(** ** Observable state *)

(** Interactions with the collaborators, oldest first. *)
Inductive event : Type :=
  | EvReadStack (source : string)
  | EvSetInput (name : string)
  | EvGetOutput (name : string)
  | EvExtractLabels
  | EvWriteStack (directory : string).

Inductive LogChannel : Type := LogUser | LogDebug.

Record World (ImageStack : Type) : Type := {
  files : gmap string string;                  (* text files by path *)
  stack_dirs : list (string * ImageStack);     (* image stacks written *)
  log : list (LogChannel * string);            (* LOG_USER / LOG_DEBUG *)
  handled : list exn;                          (* handleException(e, cerr) *)
  trace : list event
}.
Arguments files {ImageStack} _.
Arguments stack_dirs {ImageStack} _.
Arguments log {ImageStack} _.
Arguments handled {ImageStack} _.
Arguments trace {ImageStack} _.

Section World_updates.
Context {ImageStack : Type}.
Implicit Type w : World ImageStack.

Definition set_files (fs : gmap string string) w : World ImageStack :=
  {| files := fs; stack_dirs := stack_dirs w; log := log w;
     handled := handled w; trace := trace w |}.

Definition add_stack_dir (d : string) (s : ImageStack) w : World ImageStack :=
  {| files := files w; stack_dirs := stack_dirs w ++ [(d, s)]; log := log w;
     handled := handled w; trace := trace w |}.

Definition add_log (c : LogChannel) (s : string) w : World ImageStack :=
  {| files := files w; stack_dirs := stack_dirs w; log := log w ++ [(c, s)];
     handled := handled w; trace := trace w |}.

Definition add_handled (e : exn) w : World ImageStack :=
  {| files := files w; stack_dirs := stack_dirs w; log := log w;
     handled := handled w ++ [e]; trace := trace w |}.

Definition add_event (e : event) w : World ImageStack :=
  {| files := files w; stack_dirs := stack_dirs w; log := log w;
     handled := handled w; trace := trace w ++ [e] |}.
End World_updates.

(** ** Computations: state that survives a raised exception *)
Definition M (ImageStack A : Type) : Type :=
  World ImageStack -> World ImageStack * (thrown + A).

Section Monad.
Context {ImageStack : Type}.
#[local] Abbreviation M := (M ImageStack).

Definition ret {A} (a : A) : M A := fun w => (w, inr a).

Definition bind {A B} (c : M A) (k : A -> M B) : M B :=
  fun w => match c w with
           | (w', inr a) => k a w'
           | (w', inl e) => (w', inl e)
           end.

Definition throw {A} (e : exn) : M A := fun w => (w, inl (Exception e)).

Definition lift {A} (r : thrown + A) : M A := fun w => (w, r).

Definition effect (f : World ImageStack -> World ImageStack) : M unit :=
  fun w => (f w, inr tt).

(** [try { c } catch (NoSuchOutput&) { }] *)
Definition try_NoSuchOutput (c : M unit) : M unit :=
  fun w => match c w with
           | (w', inl (Exception e)) =>
               if is_NoSuchOutput e then (w', inr tt) else (w', inl (Exception e))
           | r => r
           end.

Definition when (b : bool) (c : M unit) : M unit := if b then c else ret tt.

(** [foreach (x, xs) body] *)
Fixpoint foreach {A} (xs : list A) (body : A -> M unit) : M unit :=
  match xs with
  | [] => ret tt
  | x :: xs' => bind (body x) (fun _ => foreach xs' body)
  end.
End Monad.

Declare Scope ted_scope.
Delimit Scope ted_scope with ted.
Notation "'do' x <- c ; k" := (bind c (fun x => k))
  (at level 10, x name, c at level 100, k at level 200,
   format "'[v' 'do'  x  <-  c ; '/' k ']'") : ted_scope.
Notation "'step' c ; k" := (bind c (fun _ => k))
  (at level 10, c at level 100, k at level 200,
   format "'[v' 'step'  c ; '/' k ']'") : ted_scope.

(** ** The driver, ted.cpp *)
Section Driver.
Context {ImageStack label : Type}.
Variable env : Env ImageStack label.
Variable opts : Options.
#[local] Abbreviation M := (M ImageStack).
#[local] Abbreviation World := (World ImageStack).
Local Open Scope ted_scope.

Definition tell (e : event) : M unit := effect (add_event e).

(** *** Output file streams

    A stream is the path it is bound to, or [None] when opening failed;
    writing to a failed stream does nothing.  Writes reach the file at
    once. *)
Definition ofstream : Type := option string.

Definition file_content (fs : gmap string string) (path : string) : string :=
  default "" (fs !! path).

(** [std::ofstream f(path)]: creates or truncates. *)
Definition open_trunc (path : string) : M ofstream :=
  fun w => if can_open env path
           then (set_files (<[path := ""]> (files w)) w, inr (Some path))
           else (w, inr None).

(** [std::ofstream f(path, std::ofstream::app)]: creates if missing and
    keeps what is there. *)
Definition open_app (path : string) : M ofstream :=
  fun w => if can_open env path
           then (set_files (<[path := file_content (files w) path]> (files w)) w,
                 inr (Some path))
           else (w, inr None).

(** [f << s] *)
Definition put (f : ofstream) (s : string) : M unit :=
  match f with
  | Some path =>
      effect (fun w => set_files
                (<[path := file_content (files w) path +:+ s]> (files w)) w)
  | None => ret tt
  end.

(** *** buildCorrectedPath, ted.cpp:87-94 *)
Definition buildCorrectedPath (root reconstructionPath : string) : string :=
  let folderName := "corrected_" +:+ stem env reconstructionPath in
  path_append env root folderName.

(** *** buildReportPath, ted.cpp:96-102 *)
Definition buildReportPath (root reconstructionPath type : string) : string :=
  let fileName := stem env reconstructionPath +:+ "." +:+ type +:+ ".data" in
  path_append env root fileName.

(** *** readImageStackFromOption, ted.cpp:105-153 *)

(** [option.find_first_of(":")] *)
Fixpoint find_first_of (s : string) (c : Ascii.ascii) : option nat :=
  match s with
  | EmptyString => None
  | String a s' =>
      if Ascii.eqb a c then Some 0
      else match find_first_of s' c with
           | Some n => Some (S n)
           | None => None
           end
  end.

Definition colon : Ascii.ascii := Ascii.ascii_of_nat 58.

Definition readImageStackFromOption (option : string) : M ImageStack :=
  match find_first_of option colon with
  | Some sepPos =>
      if have_hdf5 env then
        let hdfFileName := String.substring 0 sepPos option in
        let dataset :=
          String.substring (sepPos + 1) (String.length option - (sepPos + 1)) option in
        step tell (EvReadStack option);
        lift (raised_by_vigra (read_hdf5 env hdfFileName dataset))
      else
        throw (UsageError
          "This build does not support reading form HDF5 files. Set CMake variable BUILD_WITH_HDF5 and recompile.")
  | None =>
      step tell (EvReadStack option);
      lift (read_directory env option)
  end.

(** *** Requests to the [ErrorReport] process *)
Definition getOutput {A} (name : string) (r : exn + A) : M A :=
  step tell (EvGetOutput name);
  lift (raised r).

(** [ImageStackDirectoryWriter]: [setInput] then [write]. *)
Definition write_stack (directory : string) (s : ImageStack) : M unit :=
  step tell (EvWriteStack directory);
  effect (add_stack_dir directory s).

(** *** main, the header-only run: ted.cpp:187-194 *)
Definition header_run (parameters : Parameters) : M Z :=
  do f <- open_app (asString (optionPlotFile opts));
  do reportText <- getOutput "error report header" (out_header (report env) parameters);
  step put f reportText;
  step put f endl;
  ret 0%Z.

(** *** main, reading and wiring the inputs: ted.cpp:198-224.
    Yields the stack wired to "ground truth" and the one wired to
    "reconstruction". *)
Definition setup_inputs : M (ImageStack * ImageStack) :=
  do groundTruth <- readImageStackFromOption (asString (optionGroundTruth opts));
  do reconstruction <- readImageStackFromOption (asString (optionReconstruction opts));
  step tell (EvSetInput "reconstruction");
  if isSet (optionExtractGroundTruthLabels opts) then
    step effect (add_log LogDebug
           ("[main] extracting ground truth labels from connected components" +:+ endl));
    step tell EvExtractLabels;
    let extracted := extract_labels env groundTruth in
    step tell (EvSetInput "ground truth");
    step when (isSet (optionExportGroundtruth opts))
           (write_stack "groundtruth" extracted);
    ret (extracted, reconstruction)
  else
    step tell (EvSetInput "ground truth");
    ret (groundTruth, reconstruction).

(** *** main, the corrected reconstruction: ted.cpp:226-237 *)
Definition save_corrected (parameters : Parameters) (gt rec : ImageStack) : M unit :=
  try_NoSuchOutput (
    let directory := buildCorrectedPath (asString (optionTedErrorFiles opts))
                                        (asString (optionReconstruction opts)) in
    do corrected <- getOutput "ted corrected reconstruction"
                      (out_corrected (report env) parameters gt rec);
    write_stack directory corrected).

(** *** main, the human readable report: ted.cpp:239-241 *)
Definition write_report (parameters : Parameters) (gt rec : ImageStack) : M unit :=
  do reportText <- getOutput "human readable error report"
                     (out_human (report env) parameters gt rec);
  effect (add_log LogUser (reportText +:+ endl)).

(** *** main, the error listings: ted.cpp:243-271 *)
Definition reportPath (type : string) : string :=
  buildReportPath (asString (optionTedErrorFiles opts))
                  (asString (optionReconstruction opts)) type.

Definition write_listings (errors : TolerantEditDistanceErrors label) : M unit :=
  do splitFile <- open_trunc (reportPath "splits");
  step foreach (getSplitLabels errors) (fun gtLabel =>
    step put splitFile (show_label env gtLabel);
    step put splitFile tab;
    step foreach (getSplits errors gtLabel) (fun recLabel =>
      step put splitFile (show_label env recLabel);
      put splitFile tab);
    put splitFile endl);
  do mergeFile <- open_trunc (reportPath "merges");
  step foreach (getMergeLabels errors) (fun recLabel =>
    step put mergeFile (show_label env recLabel);
    step put mergeFile tab;
    step foreach (getMerges errors recLabel) (fun gtLabel =>
      step put mergeFile (show_label env gtLabel);
      put mergeFile tab);
    put mergeFile endl);
  if hasBackgroundLabel errors then
    do fpFile <- open_trunc (reportPath "fps");
    step foreach (getFalsePositives errors) (fun recLabel =>
      step put fpFile (show_label env recLabel);
      put fpFile endl);
    do fnFile <- open_trunc (reportPath "fns");
    foreach (getFalseNegatives errors) (fun gtLabel =>
      step put fnFile (show_label env gtLabel);
      put fnFile endl)
  else ret tt.

Definition write_error_files (parameters : Parameters) (gt rec : ImageStack) : M unit :=
  when (isSet (optionTedErrorFiles opts)) (
    do errors <- getOutput "ted errors" (out_errors (report env) parameters gt rec);
    write_listings errors).

(** *** main, the plot file: ted.cpp:273-280 *)
Definition write_plot_line (parameters : Parameters) (gt rec : ImageStack) : M unit :=
  when (isSet (optionPlotFile opts)) (
    do f <- open_app (asString (optionPlotFile opts));
    do reportText <- getOutput "error report" (out_line (report env) parameters gt rec);
    step put f reportText;
    put f endl).

(** *** main, the body of the outer [try]: ted.cpp:157-280 *)
Definition main_try : M Z :=
  let parameters := setupParameters opts in
  if isSet (optionPlotFileHeader opts) then
    header_run parameters
  else
    do inputs <- setup_inputs;
    let gt := fst inputs in
    let rec := snd inputs in
    step save_corrected parameters gt rec;
    step write_report parameters gt rec;
    step write_error_files parameters gt rec;
    step write_plot_line parameters gt rec;
    ret 0%Z.

(** *** main, ted.cpp:155-286.  An [Exception] that reaches the outer
    handler is passed to [handleException], which is not part of ted.cpp
    and is taken to report the exception and return; control then falls
    off the end of [main], whose exit status is 0 as after [return 0].
    Any other exception passes the handler (ted.cpp:282 catches
    [Exception&] only) and leaves [main]. *)
Definition main (w : World) : World * Outcome :=
  match main_try w with
  | (w', inr status) => (w', Exit status)
  | (w', inl (Exception e)) => (add_handled e w', Exit 0%Z)
  | (w', inl (runtime_error what)) => (w', Terminate what)
  end.
End Driver.

(** * The evaluation core

    ted.cpp only requests named outputs of an [ErrorReport] process; the
    components behind those outputs are described in the specification
    (sections 3 and 4) and modelled here from that description. *)

Open Scope nat_scope.

(** Modelled from the spec: a region label of a LabelVolume, "non-negative
    integer ... identifier" (section 3). *)
Abbreviation Label := nat.

(** Modelled from the spec: a spatial position (x, y, z) of a LabelVolume. *)
Definition Position : Type := nat * nat * nat.

(** Modelled from the spec: LabelVolume (section 3), whose source is not
    part of ted.cpp: an ordered sequence of 2D slices, each a dense grid
    (rows) of region labels, with the physical voxel size. *)
Record LabelVolume : Type := {
  slices : list (list (list Label));
  resolution : Q * Q * Q
}.

(** Modelled from the spec: the depth of a LabelVolume, its number of
    slices (section 3). *)
Definition depth (V : LabelVolume) : nat := length (slices V).

(** Modelled from the spec: the height of a LabelVolume, the number of rows
    of its slices (section 3). *)
Definition height (V : LabelVolume) : nat :=
  match slices V with
  | slice :: _ => length slice
  | [] => 0
  end.

(** Modelled from the spec: the width of a LabelVolume, the number of voxels
    of its rows (section 3). *)
Definition width (V : LabelVolume) : nat :=
  match slices V with
  | (row :: _) :: _ => length row
  | _ => 0
  end.

(** Modelled from the spec: the voxel dimensions two volumes must share
    (sections 4.1 and 6). *)
Definition dimensions (V : LabelVolume) : nat * nat * nat :=
  (width V, height V, depth V).


(** Modelled from the spec: the voxels of a LabelVolume, every position with
    the label stored there, slice by slice and row by row. *)
Definition voxels (V : LabelVolume) : list (Position * Label) :=
  concat (imap (fun z slice =>
    concat (imap (fun y row =>
      imap (fun x l => ((x, y, z), l)) row) slice)) (slices V)).

(** Modelled from the spec: the label at a position, if the position lies
    inside the volume. *)
Definition label_at (V : LabelVolume) (p : Position) : option Label :=
  let '(x, y, z) := p in
  match slices V !! z with
  | Some slice =>
      match slice !! y with
      | Some row => row !! x
      | None => None
      end
  | None => None
  end.

(** Modelled from the spec: the voxel count of a region, one row of the
    "per-region voxel-size tables" of section 4.2. *)
Definition region_size (V : LabelVolume) (l : Label) : nat :=
  length (List.filter (fun v => snd v =? l) (voxels V)).

(** Modelled from the spec: the labels with nonzero voxel count, each
    once. *)
Definition labels (V : LabelVolume) : list Label :=
  remove_dups (map snd (voxels V)).

(** Modelled from the spec: the configuration of the tolerant
    correspondence.  The tolerance radius (section 4.1), the distance it is
    measured in (left open by section 9), the minimum fraction of a region's
    size that makes an overlap substantial (section 4.2, as a ratio), the
    reserved background value and whether background handling is enabled
    (sections 3 and 4.2). *)
Record TedConfig : Type := {
  tolerance : nat;
  distance : Position -> Position -> nat;
  min_fraction_num : nat;
  min_fraction_den : nat;
  background : Label;
  background_handling : bool
}.

(** Modelled from the spec: OverlapEntry (section 3). *)
Record OverlapEntry : Type := {
  gtLabel : Label;
  recLabel : Label;
  overlap : nat;       (* overlapping voxel count within tolerance *)
  rawOverlap : nat     (* exact overlapping voxel count *)
}.

Section CorrespondenceBuilder.
Variable cfg : TedConfig.
Variables gt rec : LabelVolume.

(** Modelled from the spec: exact co-occurrence at a position, "for each
    spatial position, compare the GT label and reconstruction label"
    (section 4.1). *)
Definition co_occurs (g : Label) (p : Position) : bool :=
  match label_at gt p with
  | Some l => l =? g
  | None => false
  end.

(** Modelled from the spec: membership of a position in the GT region
    mask dilated by the tolerance radius, "lies within a fixed spatial
    distance ... of any voxel belonging to that GT label" (section 4.1). *)
Definition in_dilated_mask (g : Label) (p : Position) : bool :=
  existsb (fun v => (snd v =? g) && (distance cfg (fst v) p <=? tolerance cfg))
          (voxels gt).

(** Modelled from the spec: the exact overlap of a label pair, the
    "voxel-wise co-occurrence count keyed by (GT label, reconstruction
    label)" of section 4.1. *)
Definition exact_overlap (g r : Label) : nat :=
  length (List.filter (fun v => (snd v =? r) && co_occurs g (fst v)) (voxels rec)).

(** Modelled from the spec: a boundary-placement disagreement that the
    tolerance absorbs (section 4.1): a voxel of reconstruction label [r],
    lying on GT label [g], that falls inside the dilated mask of a GT label
    which overlaps [r] more than [g] does.  The voxel is credited to that
    label's side of the boundary. *)
Definition absorbed (g r : Label) (p : Position) : bool :=
  existsb (fun m => (exact_overlap g r <? exact_overlap m r) && in_dilated_mask m p)
          (labels gt).

(** Modelled from the spec: the tolerant overlap of a label pair (section
    4.1), the co-occurring voxels that the tolerance does not absorb.  A
    voxel credited elsewhere is not counted for the pair it lies on:
    "this tolerance absorbs small boundary-placement disagreement that
    would otherwise be counted as an error", and the count stays within
    the sizes of both regions (section 3). *)
Definition tolerant_overlap (g r : Label) : nat :=
  length (List.filter (fun v =>
    (snd v =? r) && co_occurs g (fst v) && negb (absorbed g r (fst v)))
    (voxels rec)).

(** Modelled from the spec: the OverlapEntry of a label pair, with its
    tolerant and its exact voxel count (section 3). *)
Definition overlap_entry (g r : Label) : OverlapEntry :=
  {| gtLabel := g; recLabel := r;
     overlap := tolerant_overlap g r;
     rawOverlap := exact_overlap g r |}.

(** Modelled from the spec: the label pairs the correspondence considers.
    The background is "present/considered" only with background handling
    (section 3); without it a pair with the background on either side is
    left out, so that a region lying on background only is absent from the
    overlap graph (sections 4.2 and 8). *)
Definition considered (g r : Label) : bool :=
  background_handling cfg
  || negb (g =? background cfg) && negb (r =? background cfg).

(** Modelled from the spec: the bipartite overlap graph (section 3), the
    OverlapEntry of every considered label pair with "overlap >= 1 voxel
    within tolerance". *)
Definition overlap_graph : list OverlapEntry :=
  List.filter (fun e => (1 <=? overlap e) && considered (gtLabel e) (recLabel e))
    (flat_map (fun g => map (overlap_entry g) (labels rec)) (labels gt)).

(** Modelled from the spec: CorrespondenceBuilder (section 4.1), whose
    source is not part of ted.cpp; "dimension mismatch between GT and
    reconstruction is a fatal precondition violation (signals
    ShapeMismatch)". *)
Definition CorrespondenceBuilder : exn + list OverlapEntry :=
  if decide (dimensions gt = dimensions rec)
  then inr overlap_graph
  else inl ShapeMismatch.
End CorrespondenceBuilder.

(** Modelled from the spec: the outcome of the ErrorClassifier (sections 3
    and 4.2): the matched labels of either side next to the
    TolerantEditDistanceErrors structure. *)
Record Classification : Type := {
  matchedGt : list Label;
  matchedRec : list Label;
  tedErrors : TolerantEditDistanceErrors Label
}.

Section ErrorClassifier.
Variable cfg : TedConfig.
Variable graph : list OverlapEntry.
Variables gt_size rec_size : Label -> nat.

(** Modelled from the spec: an overlap "above a minimum-fraction-of-
    region-size threshold" (section 4.2): at least the fraction
    [min_fraction_num / min_fraction_den] of the region's size. *)
Definition substantial (ov size : nat) : bool :=
  min_fraction_num cfg * size <=? min_fraction_den cfg * ov.

(** Modelled from the spec: the reconstruction labels a GT region
    substantially overlaps within tolerance (section 4.2). *)
Definition rec_partners (g : Label) : list Label :=
  map recLabel
    (List.filter (fun e => (gtLabel e =? g) && substantial (overlap e) (gt_size g))
                 graph).

(** Modelled from the spec: "symmetrically for merges from the
    reconstruction side" (section 4.2). *)
Definition gt_partners (r : Label) : list Label :=
  map gtLabel
    (List.filter (fun e => (recLabel e =? r) && substantial (overlap e) (rec_size r))
                 graph).

(** Modelled from the spec: the regions to classify, the foreground
    labels of the overlap graph; "regions entirely absent from the overlap
    graph ... are excluded" (section 4.2) and the background value "never
    represents a true foreground region" (section 3). *)
Definition gt_regions : list Label :=
  List.filter (fun g => negb (g =? background cfg)) (remove_dups (map gtLabel graph)).

(** Modelled from the spec: the reconstruction regions to classify, as
    [gt_regions] on the other side. *)
Definition rec_regions : list Label :=
  List.filter (fun r => negb (r =? background cfg)) (remove_dups (map recLabel graph)).

(** Modelled from the spec: a region whose "only substantial ... overlap
    is the background label" (section 4.2). *)
Definition only_background (partners : list Label) : bool :=
  match partners with
  | [l] => l =? background cfg
  | _ => false
  end.

(** Modelled from the spec: a region "matched" to "the single dominant
    tolerant overlap partner" (section 4.2): no second partner is above the
    threshold, and the one that is, if any, is not the background of a
    classifier that handles it (such a region is a false negative or a
    false positive). *)
Definition single_partner (partners : list Label) : bool :=
  match partners with
  | [] => true
  | [l] => negb (background_handling cfg && (l =? background cfg))
  | _ => false
  end.

(** Modelled from the spec: "tolerant overlap with more than one ...
    region above a ... threshold" (section 4.2), "cardinality > 1 signals
    a true split" (section 3). *)
Definition several_partners (partners : list Label) : bool :=
  1 <? length partners.

(** Modelled from the spec: ErrorClassifier (section 4.2), whose source is
    not part of ted.cpp.  False positives and false negatives are "only
    populated if a background label exists", that is with background
    handling enabled. *)
Definition ErrorClassifier : Classification := {|
  matchedGt := List.filter (fun g => single_partner (rec_partners g)) gt_regions;
  matchedRec := List.filter (fun r => single_partner (gt_partners r)) rec_regions;
  tedErrors := {|
    getSplitLabels := List.filter (fun g => several_partners (rec_partners g)) gt_regions;
    getSplits := rec_partners;
    getMergeLabels := List.filter (fun r => several_partners (gt_partners r)) rec_regions;
    getMerges := gt_partners;
    hasBackgroundLabel := background_handling cfg;
    getFalsePositives :=
      if background_handling cfg
      then List.filter (fun r => only_background (gt_partners r)) rec_regions
      else [];
    getFalseNegatives :=
      if background_handling cfg
      then List.filter (fun g => only_background (rec_partners g)) gt_regions
      else []
  |}
|}.
End ErrorClassifier.

(** Modelled from the spec: one evaluation of a volume pair, the
    CorrespondenceBuilder followed by the ErrorClassifier (data flow of
    section 2); a ShapeMismatch of the builder stops it. *)
Definition classify (cfg : TedConfig) (gt rec : LabelVolume) : exn + Classification :=
  match CorrespondenceBuilder cfg gt rec with
  | inr graph => inr (ErrorClassifier cfg graph (region_size gt) (region_size rec))
  | inl e => inl e
  end.

(** Modelled from the spec: the number of splits a classification reports,
    one per entry of the split listing ("exactly one split entry",
    section 8). *)
Definition numSplits (c : Classification) : nat := length (getSplitLabels (tedErrors c)).

(** Modelled from the spec: the number of merges reported. *)
Definition numMerges (c : Classification) : nat := length (getMergeLabels (tedErrors c)).

(** Modelled from the spec: the number of false positives reported. *)
Definition numFalsePositives (c : Classification) : nat :=
  length (getFalsePositives (tedErrors c)).

(** Modelled from the spec: the number of false negatives reported. *)
Definition numFalseNegatives (c : Classification) : nat :=
  length (getFalseNegatives (tedErrors c)).

(** ** ErrorReport: rendering and the process node *)

(** Modelled from the spec: the columns of the single-line report, grouped
    by metric: the TED summary counts, VOI, RAND and detection overlap
    (section 4.4). *)
Inductive Column : Type :=
  | ColTedSplits
  | ColTedMerges
  | ColTedFalsePositives
  | ColTedFalseNegatives
  | ColVoi
  | ColRand
  | ColDetectionOverlap.

(** Modelled from the spec: what section 4 leaves to configuration or to
    components it does not describe in algorithmic depth: the column names,
    the rendered VOI, RAND and detection-overlap values (which may honour
    ignore-background and grow-slices), which configurations produce the
    corrected reconstruction (sections 4.3 and 7), and the Corrector. *)
Record ReportConfig : Type := {
  ted_config : TedConfig;
  column_name : Column -> string;
  voi_value : Parameters -> LabelVolume -> LabelVolume -> string;
  rand_value : Parameters -> LabelVolume -> LabelVolume -> string;
  detection_overlap_value : LabelVolume -> LabelVolume -> string;
  produces_correction : Parameters -> bool;
  Corrector : LabelVolume -> TolerantEditDistanceErrors Label -> LabelVolume
}.

Section ErrorReport.
Variable rc : ReportConfig.

(** Modelled from the spec: the "fixed column order matching the enabled
    metrics" (section 4.4). *)
Definition enabled_columns (p : Parameters) : list Column :=
  (if reportTed p
   then [ColTedSplits; ColTedMerges; ColTedFalsePositives; ColTedFalseNegatives]
   else []) ++
  (if reportVoi p then [ColVoi] else []) ++
  (if reportRand p then [ColRand] else []) ++
  (if reportDetectionOverlap p then [ColDetectionOverlap] else []).

(** Modelled from the spec: the value rendered in a column. *)
Definition column_value (p : Parameters) (gt rec : LabelVolume)
    (c : Classification) (col : Column) : string :=
  match col with
  | ColTedSplits => pretty (numSplits c)
  | ColTedMerges => pretty (numMerges c)
  | ColTedFalsePositives => pretty (numFalsePositives c)
  | ColTedFalseNegatives => pretty (numFalseNegatives c)
  | ColVoi => voi_value rc p gt rec
  | ColRand => rand_value rc p gt rec
  | ColDetectionOverlap => detection_overlap_value rc gt rec
  end.

(** Modelled from the spec: tab-separated rendering of a row of cells. *)
Fixpoint join_tabs (cells : list string) : string :=
  match cells with
  | [] => ""
  | [c] => c
  | c :: rest => c +:+ tab +:+ join_tabs rest
  end.

(** Modelled from the spec: the header line, which lists the column names
    and needs no volume (section 4.4). *)
Definition header_line (p : Parameters) : string :=
  join_tabs (map (column_name rc) (enabled_columns p)).

(** Modelled from the spec: the single-line report (section 4.4). *)
Definition report_line (p : Parameters) (gt rec : LabelVolume)
    (c : Classification) : string :=
  join_tabs (map (column_value p gt rec c) (enabled_columns p)).

(** Modelled from the spec: the human-readable report, "one metric per
    line ... each rendered as <name>: <value>" (section 4.4). *)
Definition human_report (p : Parameters) (gt rec : LabelVolume)
    (c : Classification) : string :=
  String.concat ""
    (map (fun col => column_name rc col +:+ ": " +:+ column_value p gt rec c col +:+ endl)
         (enabled_columns p)).

(** Modelled from the spec: the ErrorReport process (section 4.4), whose
    source is not part of ted.cpp and which "orchestrates 4.1-4.3" behind
    the outputs the driver requests.  The
    header needs no input; every other output runs the correspondence of
    the volume pair first, and the corrected reconstruction is an output
    only of the configurations that produce it. *)
Definition ErrorReport : ErrorReportNode LabelVolume Label := {|
  out_header := fun p => inr (header_line p);
  out_corrected := fun p gt rec =>
    if produces_correction rc p then
      match classify (ted_config rc) gt rec with
      | inr c => inr (Corrector rc rec (tedErrors c))
      | inl e => inl e
      end
    else inl NoSuchOutput;
  out_human := fun p gt rec =>
    match classify (ted_config rc) gt rec with
    | inr c => inr (human_report p gt rec c)
    | inl e => inl e
    end;
  out_errors := fun p gt rec =>
    match classify (ted_config rc) gt rec with
    | inr c => inr (tedErrors c)
    | inl e => inl e
    end;
  out_line := fun p gt rec =>
    match classify (ted_config rc) gt rec with
    | inr c => inr (report_line p gt rec c)
    | inl e => inl e
    end
|}.
End ErrorReport.

(** The cells of a tab-separated line. *)
Fixpoint fields_from (acc : string) (s : string) : list string :=
  match s with
  | EmptyString => [acc]
  | String a s' =>
      if Ascii.eqb a (Ascii.ascii_of_nat 9)
      then acc :: fields_from "" s'
      else fields_from (acc +:+ String a "") s'
  end.

Definition fields (s : string) : list string := fields_from "" s.

Fixpoint tab_free (s : string) : bool :=
  match s with
  | EmptyString => true
  | String a s' => negb (Ascii.eqb a (Ascii.ascii_of_nat 9)) && tab_free s'
  end.

(** The number of end-of-line characters of a text. *)
Fixpoint count_endl (s : string) : nat :=
  match s with
  | EmptyString => 0
  | String a s' =>
      (if Ascii.eqb a (Ascii.ascii_of_nat 10) then 1 else 0) + count_endl s'
  end.

(** ** What a finished stream leaves in the file system *)
Section File_effects.
Context {ImageStack label : Type}.
Variable env : Env ImageStack label.

(** A stream opened with truncation, written [text] and closed. *)
Definition write_file (path text : string) (fs : gmap string string)
    : gmap string string :=
  if can_open env path then <[path := text]> fs else fs.

(** A stream opened for appending, written [text] and closed. *)
Definition append_file (path text : string) (fs : gmap string string)
    : gmap string string :=
  if can_open env path
  then <[path := default "" (fs !! path) +:+ text]> fs
  else fs.
End File_effects.

(** ** A small installation, used to run the definitions *)

(** Distance in voxels, the largest coordinate difference. *)
Definition coordinate_gap (a b : nat) : nat := (a - b) + (b - a).

Definition voxel_distance (p q : Position) : nat :=
  let '(x1, y1, z1) := p in
  let '(x2, y2, z2) := q in
  Nat.max (coordinate_gap x1 x2) (Nat.max (coordinate_gap y1 y2) (coordinate_gap z1 z2)).

(** Label 0 is the background; an overlap is substantial from [num/den] of
    the region's size on. *)
Definition voxel_config (t num den : nat) (bg : bool) : TedConfig := {|
  tolerance := t;
  distance := voxel_distance;
  min_fraction_num := num;
  min_fraction_den := den;
  background := 0;
  background_handling := bg
|}.

Definition unit_volume (s : list (list (list Label))) : LabelVolume :=
  {| slices := s; resolution := (1%Q, 1%Q, 1%Q) |}.

Definition example_column_name (c : Column) : string :=
  match c with
  | ColTedSplits => "TED_SPLITS"
  | ColTedMerges => "TED_MERGES"
  | ColTedFalsePositives => "TED_FP"
  | ColTedFalseNegatives => "TED_FN"
  | ColVoi => "VOI"
  | ColRand => "RAND"
  | ColDetectionOverlap => "DETECTION_OVERLAP"
  end.

(** The metrics that are not modelled render as "-"; the corrected
    reconstruction is produced when TED is reported and is the
    reconstruction itself. *)
Definition example_report_config (cfg : TedConfig) : ReportConfig := {|
  ted_config := cfg;
  column_name := example_column_name;
  voi_value := fun _ _ _ => "-";
  rand_value := fun _ _ _ => "-";
  detection_overlap_value := fun _ _ => "-";
  produces_correction := reportTed;
  Corrector := fun rec _ => rec
|}.

Definition given (value : string) : ProgramOption :=
  {| isSet := true; asBool := true; asString := value |}.

Definition not_given (default_value : string) (default_bool : bool) : ProgramOption :=
  {| isSet := false; asBool := default_bool; asString := default_value |}.

(** [ted --plotFile=plot.dat --tedErrorFiles=out --reportTed=<ted> ...],
    with [--plotFileHeader] when [header] is set. *)
Definition example_options (header ted : bool) : Options := {|
  optionGroundTruth := not_given "groundtruth" false;
  optionExtractGroundTruthLabels := not_given "" false;
  optionExportGroundtruth := not_given "" false;
  optionReconstruction := not_given "reconstruction" false;
  optionPlotFile := given "plot.dat";
  optionPlotFileHeader := if header then given "" else not_given "" false;
  optionTedErrorFiles := given "out";
  optionReportVoi := not_given "" false;
  optionReportRand := not_given "" false;
  optionReportDetectionOverlap := not_given "" true;
  optionReportTed := if ted then not_given "" true else
                       {| isSet := true; asBool := false; asString := "false" |};
  optionIgnoreBackground := not_given "" false;
  optionGrowSlices := not_given "" false
|}.

(** The directory separator of a POSIX path. *)
Definition slash : Ascii.ascii := Ascii.ascii_of_nat 47.

Fixpoint ends_with_slash (s : string) : bool :=
  match s with
  | EmptyString => false
  | String c EmptyString => Ascii.eqb c slash
  | String _ s' => ends_with_slash s'
  end.

(** [root /= name] of boost::filesystem on POSIX paths: the separator is
    put between the two unless the name is empty or starts with one, or the
    root is empty or ends with one. *)
Definition join_path (root name : string) : string :=
  match name with
  | EmptyString => root
  | String c _ =>
      if Ascii.eqb c slash || (String.length root =? 0) || ends_with_slash root
      then root +:+ name
      else root +:+ "/" +:+ name
  end.

(** Two image-stack directories, every file writable. *)
Definition example_env (cfg : TedConfig) (groundtruth reconstruction : LabelVolume)
    : Env LabelVolume Label := {|
  have_hdf5 := false;
  read_hdf5 := fun _ _ => inl "no HDF5 support";
  read_directory := fun d =>
    if String.eqb d "groundtruth" then inr groundtruth
    else if String.eqb d "reconstruction" then inr reconstruction
    else inl (Exception (OtherError "no such directory"));
  extract_labels := fun s => s;
  stem := fun path => path;
  path_append := join_path;
  show_label := pretty;
  can_open := fun _ => true;
  report := ErrorReport (example_report_config cfg)
|}.

Definition example_world : World LabelVolume := {|
  files := {[ "plot.dat" := "TED_SPLITS" +:+ endl ]};
  stack_dirs := [];
  log := [];
  handled := [];
  trace := []
|}.

(** One slice, a 2x2 region split in two by the reconstruction (the first
    scenario of section 8 of the specification). *)
Definition square_gt : LabelVolume :=
  unit_volume [[[0;0;0;0]; [0;1;1;0]; [0;1;1;0]; [0;0;0;0]]].
Definition square_rec : LabelVolume :=
  unit_volume [[[0;0;0;0]; [0;1;2;0]; [0;1;2;0]; [0;0;0;0]]].

(** A reconstruction region, 5, that lies on ground-truth background only
    (the last scenario of section 8). *)
Definition stray_gt : LabelVolume := unit_volume [[[0;0;0;0]; [0;1;1;0]]].
Definition stray_rec : LabelVolume := unit_volume [[[5;5;0;0]; [0;1;1;0]]].

(** One row: a region of ten voxels and a reconstruction of the same shape,
    one voxel further along the row (the offset scenario of section 8). *)
Definition offset_gt : LabelVolume :=
  unit_volume [[[0; 1; 1; 1; 1; 1; 1; 1; 1; 1; 1; 0; 0]]].
Definition offset_rec : LabelVolume :=
  unit_volume [[[0; 0; 2; 2; 2; 2; 2; 2; 2; 2; 2; 2; 0]]].

(** The split, merge, false-positive and false-negative listings of a
    volume pair, if the pair can be evaluated. *)
Definition listings (cfg : TedConfig) (gt rec : LabelVolume)
    : option (list (Label * list Label) * list (Label * list Label)
              * list Label * list Label) :=
  match classify cfg gt rec with
  | inr c =>
      let e := tedErrors c in
      Some (map (fun g => (g, getSplits e g)) (getSplitLabels e),
            map (fun r => (r, getMerges e r)) (getMergeLabels e),
            getFalsePositives e, getFalseNegatives e)
  | inl _ => None
  end.

(** Two neighbouring one-voxel regions. *)
Definition pair_volume : LabelVolume := unit_volume [[[1; 2]]].

(** A volume of other dimensions than [pair_volume]. *)
Definition triple_volume : LabelVolume := unit_volume [[[1; 2; 3]]].

(** ** The listings as texts

    What the specification says the four listing files hold; the loops of
    [write_listings] are compared with these below. *)
Definition text_of (parts : list string) : string :=
  fold_right String.append "" parts.

Section Listing_texts.
Context {ImageStack label : Type}.
Variable env : Env ImageStack label.
Variable opts : Options.

(** One label, then each partner label, a tab after every label. *)
Definition listing_line (head : label) (partners : list label) : string :=
  show_label env head +:+ tab +:+
  text_of (map (fun l => show_label env l +:+ tab) partners) +:+ endl.

Definition splits_listing (errors : TolerantEditDistanceErrors label) : string :=
  text_of (map (fun gtLabel => listing_line gtLabel (getSplits errors gtLabel))
               (getSplitLabels errors)).

Definition merges_listing (errors : TolerantEditDistanceErrors label) : string :=
  text_of (map (fun recLabel => listing_line recLabel (getMerges errors recLabel))
               (getMergeLabels errors)).

(** One label per line. *)
Definition label_listing (ls : list label) : string :=
  text_of (map (fun l => show_label env l +:+ endl) ls).

Definition split_merge_files (errors : TolerantEditDistanceErrors label)
    (fs : gmap string string) : gmap string string :=
  write_file env (reportPath env opts "merges") (merges_listing errors)
    (write_file env (reportPath env opts "splits") (splits_listing errors) fs).

Definition fp_fn_files (errors : TolerantEditDistanceErrors label)
    (fs : gmap string string) : gmap string string :=
  write_file env (reportPath env opts "fns") (label_listing (getFalseNegatives errors))
    (write_file env (reportPath env opts "fps") (label_listing (getFalsePositives errors)) fs).

Definition listing_files (errors : TolerantEditDistanceErrors label)
    (fs : gmap string string) : gmap string string :=
  if hasBackgroundLabel errors
  then fp_fn_files errors (split_merge_files errors fs)
  else split_merge_files errors fs.

(** A computation that appends [text] to the file a stream is bound to,
    and one that leaves the world alone. *)
Definition emits (path : string) (c : M ImageStack unit) (text : string) : Prop :=
  forall w content,
    files w !! path = Some content ->
    c w = (set_files (<[path := content +:+ text]> (files w)) w, inr tt).

Definition silent (c : M ImageStack unit) : Prop :=
  forall w, c w = (w, inr tt).
End Listing_texts.

(** ** Reading a classification *)

Definition memb (l : Label) (ls : list Label) : bool := existsb (Nat.eqb l) ls.

(** Modelled from the spec: in how many of the categories {matched,
    split-source, false-negative} a ground-truth label appears (partition
    property, sections 3 and 8). *)
Definition gt_category_count (c : Classification) (g : Label) : nat :=
  Nat.b2n (memb g (matchedGt c))
  + Nat.b2n (memb g (getSplitLabels (tedErrors c)))
  + Nat.b2n (memb g (getFalseNegatives (tedErrors c))).






(** One row of three voxels: a region that three reconstruction regions
    cover by a third each. *)
Definition thirds_gt : LabelVolume := unit_volume [[[1; 1; 1]]].
Definition thirds_rec : LabelVolume := unit_volume [[[1; 2; 3]]].

(** ** Paths and steps of a run *)

(** A string without [':']. *)
Fixpoint colon_free (s : string) : bool :=
  match s with
  | EmptyString => true
  | String a s' => negb (Ascii.eqb a colon) && colon_free s'
  end.

(** The text files a run of [main] opens: the plot file in a header-only
    run; otherwise the plot file when one is given and the four listings
    when they are requested. *)
Definition output_files {ImageStack label : Type} (env : Env ImageStack label)
    (opts : Options) : list string :=
  if isSet (optionPlotFileHeader opts)
  then [asString (optionPlotFile opts)]
  else ((if isSet (optionPlotFile opts) then [asString (optionPlotFile opts)] else [])
        ++ (if isSet (optionTedErrorFiles opts)
            then map (reportPath env opts) ["splits"; "merges"; "fps"; "fns"]
            else []))%list.

(** A computation that leaves the file at [path] as it is, whether it
    returns or raises. *)
Definition keeps_file {ImageStack A : Type} (path : string) (c : M ImageStack A) : Prop :=
  forall w w' r, c w = (w', r) -> files w' !! path = files w !! path.

(** An installation built with HDF5: the ground truth is the dataset
    "volumes/labels" of "stack.h5". *)
Definition example_hdf5_env (cfg : TedConfig) (groundtruth reconstruction : LabelVolume)
    : Env LabelVolume Label := {|
  have_hdf5 := true;
  read_hdf5 := fun file dataset =>
    if String.eqb file "stack.h5" && String.eqb dataset "volumes/labels"
    then inr groundtruth
    else inl "no such dataset";
  read_directory := fun d =>
    if String.eqb d "reconstruction" then inr reconstruction
    else inl (Exception (OtherError "no such directory"));
  extract_labels := fun s => s;
  stem := fun path => path;
  path_append := join_path;
  show_label := pretty;
  can_open := fun _ => true;
  report := ErrorReport (example_report_config cfg)
|}.

(** A report process that has no TED outputs, as one configured not to
    compute the tolerant edit distance, and the installation around it. *)
Definition report_without_ted : ErrorReportNode LabelVolume Label := {|
  out_header := fun _ => inr "VOI";
  out_corrected := fun _ _ _ => inl NoSuchOutput;
  out_human := fun _ _ _ => inr "VOI: -";
  out_errors := fun _ _ _ => inl NoSuchOutput;
  out_line := fun _ _ _ => inr "-"
|}.

Definition example_env_without_ted (groundtruth reconstruction : LabelVolume)
    : Env LabelVolume Label := {|
  have_hdf5 := false;
  read_hdf5 := fun _ _ => inl "no HDF5 support";
  read_directory := fun d =>
    if String.eqb d "groundtruth" then inr groundtruth
    else if String.eqb d "reconstruction" then inr reconstruction
    else inl (Exception (OtherError "no such directory"));
  extract_labels := fun s => s;
  stem := fun path => path;
  path_append := join_path;
  show_label := pretty;
  can_open := fun _ => true;
  report := report_without_ted
|}.

(** A stream that is not bound to [p]. *)
Definition elsewhere (p : string) (f : ofstream) : Prop :=
  match f with
  | Some path => p <> path
  | None => True
  end.

(** A report process that cannot render its single-line texts; it finds
    no error to list. *)
Definition report_without_texts : ErrorReportNode LabelVolume Label := {|
  out_header := fun _ => inl (OtherError "no header");
  out_corrected := fun _ _ _ => inl NoSuchOutput;
  out_human := fun _ _ _ => inr "VOI: -";
  out_errors := fun _ _ _ =>
    inr {| getSplitLabels := []; getSplits := fun _ => [];
           getMergeLabels := []; getMerges := fun _ => [];
           hasBackgroundLabel := false;
           getFalsePositives := []; getFalseNegatives := [] |};
  out_line := fun _ _ _ => inl (OtherError "no report")
|}.

Definition example_env_without_texts (groundtruth reconstruction : LabelVolume)
    : Env LabelVolume Label := {|
  have_hdf5 := false;
  read_hdf5 := fun _ _ => inl "no HDF5 support";
  read_directory := fun d =>
    if String.eqb d "groundtruth" then inr groundtruth
    else if String.eqb d "reconstruction" then inr reconstruction
    else inl (Exception (OtherError "no such directory"));
  extract_labels := fun s => s;
  stem := fun path => path;
  path_append := join_path;
  show_label := pretty;
  can_open := fun _ => true;
  report := report_without_texts
|}.

(** [ted --extractGroundTruthLabels], with [--exportGroundTruth] when
    [export] is set. *)
Definition example_extract_options (extract export : bool) : Options := {|
  optionGroundTruth := not_given "groundtruth" false;
  optionExtractGroundTruthLabels := if extract then given "" else not_given "" false;
  optionExportGroundtruth := if export then given "" else not_given "" false;
  optionReconstruction := not_given "reconstruction" false;
  optionPlotFile := not_given "" false;
  optionPlotFileHeader := not_given "" false;
  optionTedErrorFiles := not_given "" false;
  optionReportVoi := not_given "" false;
  optionReportRand := not_given "" false;
  optionReportDetectionOverlap := not_given "" true;
  optionReportTed := not_given "" true;
  optionIgnoreBackground := not_given "" false;
  optionGrowSlices := not_given "" false
|}.

(** [ted --groundTruth=stack.h5:volumes/missing], a dataset the file of
    [example_hdf5_env] does not hold. *)
Definition example_hdf5_options : Options := {|
  optionGroundTruth := given "stack.h5:volumes/missing";
  optionExtractGroundTruthLabels := not_given "" false;
  optionExportGroundtruth := not_given "" false;
  optionReconstruction := not_given "reconstruction" false;
  optionPlotFile := given "plot.dat";
  optionPlotFileHeader := not_given "" false;
  optionTedErrorFiles := given "out";
  optionReportVoi := not_given "" false;
  optionReportRand := not_given "" false;
  optionReportDetectionOverlap := not_given "" true;
  optionReportTed := not_given "" true;
  optionIgnoreBackground := not_given "" false;
  optionGrowSlices := not_given "" false
|}.

(** * Properties of the driver *)

Lemma string_app_nil_r (s : string) : s +:+ "" = s.
Proof.
  induction s as [|a s IH]; [reflexivity |].
  change (String a (s +:+ "") = String a s). now rewrite IH.
Qed.

Lemma string_app_assoc (a b c : string) : (a +:+ b) +:+ c = a +:+ (b +:+ c).
Proof.
  induction a as [|x a IH]; [reflexivity |].
  change (String x ((a +:+ b) +:+ c) = String x (a +:+ (b +:+ c))). now rewrite IH.
Qed.

Lemma count_endl_app (a b : string) :
  count_endl (a +:+ b) = count_endl a + count_endl b.
Proof.
  induction a as [|x a IH]; [reflexivity |].
  change (count_endl (String x (a +:+ b)) = count_endl (String x a) + count_endl b).
  simpl. rewrite IH. lia.
Qed.

Lemma set_files_same {ImageStack} (w : World ImageStack) : set_files (files w) w = w.
Proof. now destruct w. Qed.

Section Stream_facts.
Context {ImageStack label : Type}.
Variable env : Env ImageStack label.
Local Open Scope ted_scope.

Lemma emits_put path s : emits path (put (ImageStack := ImageStack) (Some path) s) s.
Proof. intros w content H. unfold put, effect, file_content. now rewrite H. Qed.

Lemma emits_ret path : emits path (ret (ImageStack := ImageStack) tt) "".
Proof.
  intros w content H. unfold ret.
  rewrite string_app_nil_r, insert_id by exact H. now rewrite set_files_same.
Qed.

Lemma emits_bind path (c1 c2 : M ImageStack unit) t1 t2 :
  emits path c1 t1 -> emits path c2 t2 ->
  emits path (step c1; c2) (t1 +:+ t2).
Proof.
  intros H1 H2 w content H. unfold bind. rewrite (H1 w content H).
  rewrite (H2 _ (content +:+ t1)) by (simpl; apply lookup_insert_eq).
  simpl. now rewrite insert_insert_eq, string_app_assoc.
Qed.

Lemma emits_foreach {A} path (xs : list A) (body : A -> M ImageStack unit)
    (text : A -> string) :
  (forall x, emits path (body x) (text x)) ->
  emits path (foreach xs body) (text_of (map text xs)).
Proof.
  intros Hbody. induction xs as [|x xs IH]; simpl.
  - apply emits_ret.
  - apply emits_bind; [apply Hbody | exact IH].
Qed.

Lemma silent_put s : silent (put (ImageStack := ImageStack) None s).
Proof. intros w. reflexivity. Qed.

Lemma silent_bind (c1 c2 : M ImageStack unit) :
  silent c1 -> silent c2 -> silent (step c1; c2).
Proof. intros H1 H2 w. unfold bind. now rewrite H1, H2. Qed.

Lemma silent_foreach {A} (xs : list A) (body : A -> M ImageStack unit) :
  (forall x, silent (body x)) -> silent (foreach xs body).
Proof.
  intros Hbody. induction xs as [|x xs IH]; simpl.
  - intros w. reflexivity.
  - apply silent_bind; [apply Hbody | exact IH].
Qed.

(** A truncating stream and the loop that fills it leave the file with
    exactly the text of the loop. *)
Lemma open_trunc_block path (c : ofstream -> M ImageStack unit) text :
  emits path (c (Some path)) text -> silent (c None) ->
  forall w, bind (open_trunc env path) c w
            = (set_files (write_file env path text (files w)) w, inr tt).
Proof.
  intros Hsome Hnone w. unfold bind, open_trunc, write_file.
  destruct (can_open env path).
  - rewrite (Hsome _ "") by (simpl; apply lookup_insert_eq).
    simpl. now rewrite insert_insert_eq.
  - rewrite Hnone. now rewrite set_files_same.
Qed.
End Stream_facts.

Section Driver_facts.
Context {ImageStack label : Type}.
Variable env : Env ImageStack label.
Variable opts : Options.
Local Open Scope ted_scope.

Lemma open_trunc_then {B} path (c : ofstream -> M ImageStack unit) text
    (k : M ImageStack B) w :
  emits path (c (Some path)) text -> silent (c None) ->
  bind (open_trunc env path) (fun f => step c f; k) w
  = k (set_files (write_file env path text (files w)) w).
Proof.
  intros Hsome Hnone.
  pose proof (open_trunc_block env path c text Hsome Hnone w) as H.
  unfold bind in *. destruct (open_trunc env path w) as [w1 [e|f]].
  - discriminate H.
  - destruct (c f w1) as [w2 [e|[]]]; inversion H; subst; reflexivity.
Qed.

Lemma emits_listing_line path head (partners : list label) :
  emits path
    (step put (Some path) (show_label env head);
     step put (Some path) tab;
     step foreach partners (fun l =>
            step put (Some path) (show_label env l);
            put (Some path) tab);
     put (ImageStack := ImageStack) (Some path) endl)
    (listing_line env head partners).
Proof.
  unfold listing_line.
  apply emits_bind; [apply emits_put |].
  apply emits_bind; [apply emits_put |].
  apply emits_bind; [| apply emits_put].
  apply emits_foreach. intros l. apply emits_bind; apply emits_put.
Qed.

Lemma silent_listing_line head (partners : list label) :
  silent
    (step put None (show_label env head);
     step put None tab;
     step foreach partners (fun l =>
            step put None (show_label env l);
            put None tab);
     put (ImageStack := ImageStack) None endl).
Proof.
  repeat (apply silent_bind || apply silent_put || apply silent_foreach || intros ?).
Qed.

Lemma emits_label_lines path (ls : list label) :
  emits path
    (foreach ls (fun l =>
       step put (Some path) (show_label env l);
       put (ImageStack := ImageStack) (Some path) endl))
    (label_listing env ls).
Proof.
  apply emits_foreach. intros l. apply emits_bind; apply emits_put.
Qed.

Lemma silent_label_lines (ls : list label) :
  silent
    (foreach ls (fun l =>
       step put None (show_label env l);
       put (ImageStack := ImageStack) None endl)).
Proof.
  apply silent_foreach. intros l. apply silent_bind; apply silent_put.
Qed.

(** The loops of ted.cpp:248-270 leave exactly the four listings. *)
Lemma write_listings_files (errors : TolerantEditDistanceErrors label) w :
  write_listings env opts errors w
  = (set_files (listing_files env opts errors (files w)) w, inr tt).
Proof.
  unfold write_listings, listing_files, fp_fn_files, split_merge_files.
  rewrite (open_trunc_then (reportPath env opts "splits") _ (splits_listing env errors)).
  2:{ apply emits_foreach. intros g. apply emits_listing_line. }
  2:{ apply silent_foreach. intros g. apply silent_listing_line. }
  rewrite (open_trunc_then (reportPath env opts "merges") _ (merges_listing env errors)).
  2:{ apply emits_foreach. intros r. apply emits_listing_line. }
  2:{ apply silent_foreach. intros r. apply silent_listing_line. }
  destruct (hasBackgroundLabel errors); [| reflexivity].
  rewrite (open_trunc_then (reportPath env opts "fps") _
             (label_listing env (getFalsePositives errors)))
    by (apply emits_label_lines || apply silent_label_lines).
  rewrite (open_trunc_block env (reportPath env opts "fns") _
             (label_listing env (getFalseNegatives errors)))
    by (apply emits_label_lines || apply silent_label_lines).
  reflexivity.
Qed.
End Driver_facts.

Section Driver_steps.
Context {ImageStack label : Type}.
Variable env : Env ImageStack label.
Variable opts : Options.
Local Open Scope ted_scope.

Lemma header_run_ok parameters h w :
  out_header (report env) parameters = inr h ->
  header_run env opts parameters w
  = (add_event (EvGetOutput "error report header")
       (set_files (append_file env (asString (optionPlotFile opts)) (h +:+ endl) (files w)) w),
     inr 0%Z).
Proof.
  intros Hh.
  unfold header_run, append_file, open_app, getOutput, raised, tell, lift, put, effect,
    bind, ret, file_content.
  destruct (can_open env (asString (optionPlotFile opts))); rewrite Hh;
    unfold set_files, add_event; cbn.
  - rewrite lookup_insert_eq. cbn. rewrite lookup_insert_eq. cbn.
    now rewrite !insert_insert_eq, string_app_assoc.
  - reflexivity.
Qed.

Lemma header_run_trace parameters w :
  let w' := fst (header_run env opts parameters w) in
  trace w' = (trace w ++ [EvGetOutput "error report header"])%list
  /\ stack_dirs w' = stack_dirs w /\ log w' = log w /\ handled w' = handled w
  /\ (forall status, snd (header_run env opts parameters w) = inr status -> status = 0%Z).
Proof.
  unfold header_run, open_app, getOutput, raised, tell, lift, put, effect, bind, ret.
  destruct (can_open env (asString (optionPlotFile opts)));
    destruct (out_header (report env) parameters); cbn;
    repeat split; auto; intros status H; congruence.
Qed.

(** The header-only run raises nothing but the project's exceptions. *)
Lemma header_run_raises parameters w w' t :
  header_run env opts parameters w = (w', inl t) -> exists e, t = Exception e.
Proof.
  unfold header_run, open_app, getOutput, raised, tell, lift, put, effect, bind, ret.
  destruct (can_open env (asString (optionPlotFile opts)));
    destruct (out_header (report env) parameters); cbn;
    intros [= _ <-]; eauto.
Qed.

Lemma write_plot_line_ok parameters gt rec line w :
  isSet (optionPlotFile opts) = true ->
  out_line (report env) parameters gt rec = inr line ->
  write_plot_line env opts parameters gt rec w
  = (add_event (EvGetOutput "error report")
       (set_files (append_file env (asString (optionPlotFile opts)) (line +:+ endl) (files w)) w),
     inr tt).
Proof.
  intros Hset Hline. unfold write_plot_line. rewrite Hset.
  unfold when, append_file, open_app, getOutput, raised, tell, lift, put, effect,
    bind, ret, file_content.
  destruct (can_open env (asString (optionPlotFile opts))); rewrite Hline;
    unfold set_files, add_event; cbn.
  - rewrite lookup_insert_eq. cbn. rewrite lookup_insert_eq. cbn.
    now rewrite !insert_insert_eq, string_app_assoc.
  - reflexivity.
Qed.

Lemma write_error_files_ok parameters gt rec errors w :
  isSet (optionTedErrorFiles opts) = true ->
  out_errors (report env) parameters gt rec = inr errors ->
  write_error_files env opts parameters gt rec w
  = (add_event (EvGetOutput "ted errors")
       (set_files (listing_files env opts errors (files w)) w),
     inr tt).
Proof.
  intros Hset Herr. unfold write_error_files. rewrite Hset. unfold when.
  unfold getOutput, raised, tell, lift, effect. unfold bind at 1. unfold bind at 1.
  rewrite Herr. rewrite write_listings_files. reflexivity.
Qed.
End Driver_steps.

(** C5. When the plot-file-header option is set, [main] requests the
    "error report header" output and nothing else: no image stack is read,
    no input is wired, no other output of the report (hence no
    correspondence, classification or metric) is requested, nothing is
    logged or written as an image stack, and the exit status is 0.  When the
    header is available it is appended, with an end of line, to the plot
    file, and no exception is handled. *)
Theorem header_only_run_does_no_volume_processing
    {ImageStack label : Type} (env : Env ImageStack label) (opts : Options)
    (w : World ImageStack) :
  isSet (optionPlotFileHeader opts) = true ->
  let w' := fst (main env opts w) in
  trace w' = (trace w ++ [EvGetOutput "error report header"])%list
  /\ stack_dirs w' = stack_dirs w
  /\ log w' = log w
  /\ snd (main env opts w) = Exit 0%Z
  /\ (forall h, out_header (report env) (setupParameters opts) = inr h ->
        files w' = append_file env (asString (optionPlotFile opts)) (h +:+ endl) (files w)
        /\ handled w' = handled w).
Proof.
  intros Hheader. unfold main, main_try. rewrite Hheader.
  pose proof (header_run_trace env opts (setupParameters opts) w) as (Ht & Hs & Hl & Hh & Hz).
  cbv zeta in *.
  destruct (header_run env opts (setupParameters opts) w) as [w1 [t|status]] eqn:Hrun;
    cbn [fst snd] in *.
  - destruct (header_run_raises env opts _ _ _ _ Hrun) as [e ->]. cbn [fst snd].
    refine (conj Ht (conj Hs (conj Hl (conj eq_refl _)))).
    intros h Hout. rewrite (header_run_ok env opts _ h w Hout) in Hrun. discriminate Hrun.
  - refine (conj Ht (conj Hs (conj Hl (conj (f_equal Exit (Hz status eq_refl)) _)))).
    intros h Hout. split; [| exact Hh].
    rewrite (header_run_ok env opts _ h w Hout) in Hrun. inversion Hrun. reflexivity.
Qed.

Lemma header_only_run_witness :
  let env := example_env (voxel_config 0 1 10 true) square_gt square_rec in
  let opts := example_options true true in
  let w' := fst (main env opts example_world) in
  trace w' = (trace example_world ++ [EvGetOutput "error report header"])%list
  /\ stack_dirs w' = stack_dirs example_world
  /\ log w' = log example_world
  /\ snd (main env opts example_world) = Exit 0%Z
  /\ (forall h, out_header (report env) (setupParameters opts) = inr h ->
        files w' = append_file env (asString (optionPlotFile opts)) (h +:+ endl)
                     (files example_world)
        /\ handled w' = handled example_world).
Proof.
  apply (header_only_run_does_no_volume_processing
           (example_env (voxel_config 0 1 10 true) square_gt square_rec)
           (example_options true true) example_world).
  reflexivity.
Defined.

(** C10. Both writes to the plot file, the header line of a header-only
    run (ted.cpp:187-194) and the single-line report (ted.cpp:273-280), go
    through a stream opened in append mode: when the stream opens and the
    requested text is available, the file holds afterwards what it held
    before, followed by the text and one end of line, and no other file
    changes.  The text adds its own ends of line, if it has any, and the
    write adds exactly one more. *)
Theorem plot_file_writes_append
    {ImageStack label : Type} (env : Env ImageStack label) :
  (forall opts (w : World ImageStack) h,
     isSet (optionPlotFileHeader opts) = true ->
     can_open env (asString (optionPlotFile opts)) = true ->
     out_header (report env) (setupParameters opts) = inr h ->
     let plot := asString (optionPlotFile opts) in
     let old := default "" (files w !! plot) in
     files (fst (main env opts w)) = <[plot := old +:+ h +:+ endl]> (files w)
     /\ count_endl (old +:+ h +:+ endl) = count_endl old + count_endl h + 1)
  /\
  (forall opts parameters gt rec (w : World ImageStack) line,
     isSet (optionPlotFile opts) = true ->
     can_open env (asString (optionPlotFile opts)) = true ->
     out_line (report env) parameters gt rec = inr line ->
     let plot := asString (optionPlotFile opts) in
     let old := default "" (files w !! plot) in
     files (fst (write_plot_line env opts parameters gt rec w))
       = <[plot := old +:+ line +:+ endl]> (files w)
     /\ count_endl (old +:+ line +:+ endl) = count_endl old + count_endl line + 1).
Proof.
  split.
  - intros opts w h Hheader Hopen Hout plot old. split.
    + unfold main, main_try. rewrite Hheader.
      rewrite (header_run_ok env opts _ h w Hout). cbn [fst files add_event set_files].
      subst plot old. unfold append_file. rewrite Hopen. reflexivity.
    + rewrite !count_endl_app. change (count_endl endl) with 1. lia.
  - intros opts parameters gt rec w line Hset Hopen Hout plot old. split.
    + rewrite (write_plot_line_ok env opts parameters gt rec line w Hset Hout).
      cbn [fst files add_event set_files].
      subst plot old. unfold append_file. rewrite Hopen. reflexivity.
    + rewrite !count_endl_app. change (count_endl endl) with 1. lia.
Qed.

Lemma plot_file_writes_append_witness :
  let env := example_env (voxel_config 0 1 10 true) square_gt square_rec in
  (files (fst (main env (example_options true true) example_world))
     = <["plot.dat" := ("TED_SPLITS" +:+ endl) +:+
                       header_line (example_report_config (voxel_config 0 1 10 true))
                         (setupParameters (example_options true true)) +:+ endl]>
         (files example_world))
  /\
  (files (fst (write_plot_line env (example_options false true)
                 (setupParameters (example_options false true))
                 square_gt square_rec example_world))
     = <["plot.dat" := ("TED_SPLITS" +:+ endl) +:+ "1	0	0	0	-" +:+ endl]>
         (files example_world)).
Proof.
  pose (env := example_env (voxel_config 0 1 10 true) square_gt square_rec).
  split.
  - apply (proj1 (plot_file_writes_append env) (example_options true true) example_world
             (header_line (example_report_config (voxel_config 0 1 10 true))
                (setupParameters (example_options true true))));
      reflexivity.
  - apply (proj2 (plot_file_writes_append env) (example_options false true)
             (setupParameters (example_options false true))
             square_gt square_rec example_world "1	0	0	0	-");
      reflexivity.
Defined.

(** C9. When the error-listing option is set and the "ted errors" output
    is available, the block ted.cpp:243-271 writes the splits file with one
    line per split label (the ground-truth label, then each reconstruction
    label it was split into, a tab after every label) and the merges file
    with one line per merge label (the reconstruction label, then each
    ground-truth label merged into it, a tab after every label); with a
    background label it writes the false positives and the false negatives,
    one label per line. *)
Theorem error_listings_format
    {ImageStack label : Type} (env : Env ImageStack label) (opts : Options)
    parameters gt rec (errors : TolerantEditDistanceErrors label)
    (w : World ImageStack) :
  isSet (optionTedErrorFiles opts) = true ->
  out_errors (report env) parameters gt rec = inr errors ->
  let show := show_label env in
  let line head partners :=
    show head +:+ tab +:+ text_of (map (fun l => show l +:+ tab) partners) +:+ endl in
  let splits :=
    text_of (map (fun gtLabel => line gtLabel (getSplits errors gtLabel))
                 (getSplitLabels errors)) in
  let merges :=
    text_of (map (fun recLabel => line recLabel (getMerges errors recLabel))
                 (getMergeLabels errors)) in
  let fps := text_of (map (fun recLabel => show recLabel +:+ endl) (getFalsePositives errors)) in
  let fns := text_of (map (fun gtLabel => show gtLabel +:+ endl) (getFalseNegatives errors)) in
  let split_merge :=
    write_file env (reportPath env opts "merges") merges
      (write_file env (reportPath env opts "splits") splits (files w)) in
  snd (write_error_files env opts parameters gt rec w) = inr tt
  /\ files (fst (write_error_files env opts parameters gt rec w))
     = if hasBackgroundLabel errors
       then write_file env (reportPath env opts "fns") fns
              (write_file env (reportPath env opts "fps") fps split_merge)
       else split_merge.
Proof.
  intros Hset Herr. cbv zeta.
  rewrite (write_error_files_ok env opts parameters gt rec errors w Hset Herr).
  split; reflexivity.
Qed.

Lemma error_listings_format_witness :
  let env := example_env (voxel_config 0 1 10 true) square_gt square_rec in
  let opts := example_options false true in
  let w' := fst (write_error_files env opts (setupParameters opts)
                   square_gt square_rec example_world) in
  files w' !! "out/reconstruction.splits.data"
    = Some ("1" +:+ tab +:+ "1" +:+ tab +:+ "2" +:+ tab +:+ endl)
  /\ files w' !! "out/reconstruction.fps.data" = Some "".
Proof.
  cbv zeta.
  rewrite (proj2 (error_listings_format
             (example_env (voxel_config 0 1 10 true) square_gt square_rec)
             (example_options false true)
             (setupParameters (example_options false true))
             square_gt square_rec _ example_world eq_refl eq_refl)).
  split; vm_compute; reflexivity.
Defined.

(** The run after a missing corrected reconstruction, step by step. *)
Lemma main_after_missing_correction
    {ImageStack label : Type} (env : Env ImageStack label) (opts : Options)
    (w w1 : World ImageStack) gt rec text
    (errors : TolerantEditDistanceErrors label) line :
  let parameters := setupParameters opts in
  isSet (optionPlotFileHeader opts) = false ->
  setup_inputs env opts w = (w1, inr (gt, rec)) ->
  out_corrected (report env) parameters gt rec = inl NoSuchOutput ->
  out_human (report env) parameters gt rec = inr text ->
  (isSet (optionTedErrorFiles opts) = true ->
   out_errors (report env) parameters gt rec = inr errors) ->
  (isSet (optionPlotFile opts) = true ->
   out_line (report env) parameters gt rec = inr line) ->
  main env opts w =
    (let w2 := add_log LogUser (text +:+ endl)
                 (add_event (EvGetOutput "human readable error report")
                    (add_event (EvGetOutput "ted corrected reconstruction") w1)) in
     let w3 := if isSet (optionTedErrorFiles opts)
               then add_event (EvGetOutput "ted errors")
                      (set_files (listing_files env opts errors (files w2)) w2)
               else w2 in
     if isSet (optionPlotFile opts)
     then add_event (EvGetOutput "error report")
            (set_files (append_file env (asString (optionPlotFile opts))
                          (line +:+ endl) (files w3)) w3)
     else w3,
     Exit 0%Z).
Proof.
  intros parameters Hheader Hsetup Hcorr Hhuman Herrors Hline.
  unfold main, main_try. rewrite Hheader. fold parameters.
  unfold bind. rewrite Hsetup. cbv beta iota. cbn [fst snd].
  unfold save_corrected, write_report, try_NoSuchOutput, getOutput, raised, tell, lift,
    effect, bind, ret.
  rewrite Hcorr. change (is_NoSuchOutput NoSuchOutput) with true. cbv beta iota.
  rewrite Hhuman. cbv beta iota.
  destruct (isSet (optionTedErrorFiles opts)) eqn:Hted.
  - rewrite (write_error_files_ok env opts parameters gt rec errors _ Hted (Herrors eq_refl)).
    cbv beta iota.
    destruct (isSet (optionPlotFile opts)) eqn:Hplot.
    + rewrite (write_plot_line_ok env opts parameters gt rec line _ Hplot (Hline eq_refl)).
      reflexivity.
    + unfold write_plot_line. rewrite Hplot. reflexivity.
  - unfold write_error_files. rewrite Hted. unfold when at 1. unfold ret at 1.
    cbv beta iota.
    destruct (isSet (optionPlotFile opts)) eqn:Hplot.
    + rewrite (write_plot_line_ok env opts parameters gt rec line _ Hplot (Hline eq_refl)).
      reflexivity.
    + unfold write_plot_line. rewrite Hplot. reflexivity.
Qed.

(** C4. In a run that is not header-only and whose inputs were read, a
    request for the "ted corrected reconstruction" output that raises
    NoSuchOutput is caught where it was made (ted.cpp:226-237): no exception
    reaches the handler of [main], no image stack is written for it, and
    the run goes on to log the human readable report, to write the error
    listings when they are requested, and to append the single-line report
    to the plot file when one is given. *)
Theorem missing_corrected_output_is_not_a_failure
    {ImageStack label : Type} (env : Env ImageStack label) (opts : Options)
    (w w1 : World ImageStack) gt rec text
    (errors : TolerantEditDistanceErrors label) line :
  let parameters := setupParameters opts in
  isSet (optionPlotFileHeader opts) = false ->
  setup_inputs env opts w = (w1, inr (gt, rec)) ->
  out_corrected (report env) parameters gt rec = inl NoSuchOutput ->
  out_human (report env) parameters gt rec = inr text ->
  (isSet (optionTedErrorFiles opts) = true ->
   out_errors (report env) parameters gt rec = inr errors) ->
  (isSet (optionPlotFile opts) = true ->
   out_line (report env) parameters gt rec = inr line) ->
  let w' := fst (main env opts w) in
  handled w' = handled w1
  /\ snd (main env opts w) = Exit 0%Z
  /\ stack_dirs w' = stack_dirs w1
  /\ log w' = (log w1 ++ [(LogUser, text +:+ endl)])%list
  /\ files w' =
       let listed := if isSet (optionTedErrorFiles opts)
                     then listing_files env opts errors (files w1)
                     else files w1 in
       if isSet (optionPlotFile opts)
       then append_file env (asString (optionPlotFile opts)) (line +:+ endl) listed
       else listed.
Proof.
  intros parameters Hheader Hsetup Hcorr Hhuman Herrors Hline.
  rewrite (main_after_missing_correction env opts w w1 gt rec text errors line
             Hheader Hsetup Hcorr Hhuman Herrors Hline).
  destruct (isSet (optionTedErrorFiles opts)), (isSet (optionPlotFile opts));
    cbn; repeat split; reflexivity.
Qed.

Lemma missing_corrected_output_witness :
  let env := example_env (voxel_config 0 1 10 true) square_gt square_rec in
  let opts := example_options false false in
  let w' := fst (main env opts example_world) in
  out_corrected (report env) (setupParameters opts) square_gt square_rec = inl NoSuchOutput
  /\ handled w' = []
  /\ snd (main env opts example_world) = Exit 0%Z
  /\ stack_dirs w' = []
  /\ log w' = [(LogUser, ("DETECTION_OVERLAP: -" +:+ endl) +:+ endl)]
  /\ files w' !! "plot.dat" = Some (("TED_SPLITS" +:+ endl) +:+ "-" +:+ endl)
  /\ files w' !! "out/reconstruction.splits.data"
     = Some ("1" +:+ tab +:+ "1" +:+ tab +:+ "2" +:+ tab +:+ endl).
Proof.
  cbv zeta. split; [reflexivity |].
  epose proof (missing_corrected_output_is_not_a_failure
                 (example_env (voxel_config 0 1 10 true) square_gt square_rec)
                 (example_options false false) example_world
                 _ square_gt square_rec _ _ _
                 eq_refl eq_refl eq_refl eq_refl (fun _ => eq_refl) (fun _ => eq_refl))
    as (Hhandled & Hstatus & Hstacks & Hlog & Hfiles).
  rewrite Hhandled, Hstatus, Hstacks, Hlog, Hfiles.
  repeat split; vm_compute; reflexivity.
Defined.

(** * Properties of the evaluation core and of the driver on top of it *)

Lemma classify_shape_mismatch cfg gt rec :
  dimensions gt <> dimensions rec -> classify cfg gt rec = inl ShapeMismatch.
Proof.
  intros Hdim. unfold classify, CorrespondenceBuilder.
  destruct (decide (dimensions gt = dimensions rec)); [contradiction | reflexivity].
Qed.

Lemma readImageStackFromOption_files {ImageStack label : Type}
    (env : Env ImageStack label) (option : string) (w : World ImageStack) :
  files (fst (readImageStackFromOption env option w)) = files w
  /\ handled (fst (readImageStackFromOption env option w)) = handled w.
Proof.
  unfold readImageStackFromOption, tell, lift, effect, throw, bind.
  destruct (find_first_of option colon); [destruct (have_hdf5 env) |]; cbn; auto.
Qed.

(** Reading and wiring the inputs writes no text file and handles no
    exception. *)
Lemma setup_inputs_files {ImageStack label : Type} (env : Env ImageStack label)
    (opts : Options) (w w' : World ImageStack) r :
  setup_inputs env opts w = (w', r) ->
  files w' = files w /\ handled w' = handled w.
Proof.
  unfold setup_inputs, bind.
  pose proof (readImageStackFromOption_files env (asString (optionGroundTruth opts)) w)
    as [Hf1 Hh1].
  destruct (readImageStackFromOption env (asString (optionGroundTruth opts)) w)
    as [wa [e|groundTruth]]; cbn [fst] in *.
  { intros [= <- <-]. auto. }
  pose proof (readImageStackFromOption_files env (asString (optionReconstruction opts)) wa)
    as [Hf2 Hh2].
  destruct (readImageStackFromOption env (asString (optionReconstruction opts)) wa)
    as [wb [e'|reconstruction]]; cbn [fst] in *.
  { intros [= <- <-]. split; congruence. }
  unfold write_stack, when, tell, effect, bind, ret.
  destruct (isSet (optionExtractGroundTruthLabels opts));
    [destruct (isSet (optionExportGroundtruth opts)) |];
    cbn; intros [= <- <-]; cbn; split; congruence.
Qed.

(** C7. Volumes of different dimensions make the correspondence fail with
    ShapeMismatch, so no classification exists for the pair.  In a run of
    [main] on the ErrorReport process the exception is not absorbed by the
    handler of the corrected-reconstruction request: it reaches the outer
    handler of [main], and nothing is reported for the pair, no log line,
    no listing, no plot line, no corrected stack. *)
Theorem shape_mismatch_stops_the_evaluation
    (rc : ReportConfig) (env : Env LabelVolume Label) (opts : Options)
    (w w1 : World LabelVolume) (gt rec : LabelVolume) :
  report env = ErrorReport rc ->
  isSet (optionPlotFileHeader opts) = false ->
  setup_inputs env opts w = (w1, inr (gt, rec)) ->
  dimensions gt <> dimensions rec ->
  CorrespondenceBuilder (ted_config rc) gt rec = inl ShapeMismatch
  /\ classify (ted_config rc) gt rec = inl ShapeMismatch
  /\ (let w' := fst (main env opts w) in
      handled w' = (handled w ++ [ShapeMismatch])%list
      /\ files w' = files w
      /\ log w' = log w1
      /\ stack_dirs w' = stack_dirs w1).
Proof.
  intros Hreport Hheader Hsetup Hdim.
  pose proof (classify_shape_mismatch (ted_config rc) gt rec Hdim) as Hclassify.
  split; [| split; [exact Hclassify |]].
  { unfold CorrespondenceBuilder.
    destruct (decide (dimensions gt = dimensions rec)); [contradiction | reflexivity]. }
  pose proof (setup_inputs_files env opts w w1 _ Hsetup) as [Hfiles Hhandled].
  cbv zeta. unfold main, main_try. rewrite Hheader.
  unfold bind. rewrite Hsetup. cbv beta iota. cbn [fst snd].
  unfold save_corrected, write_report, try_NoSuchOutput, getOutput, raised, tell, lift,
    effect, bind, ret.
  rewrite Hreport. cbn [ErrorReport out_corrected out_human]. rewrite Hclassify.
  destruct (produces_correction rc (setupParameters opts)); cbn;
    rewrite Hfiles, Hhandled; repeat split; reflexivity.
Qed.

Lemma shape_mismatch_witness :
  let env := example_env (voxel_config 0 1 10 true) pair_volume triple_volume in
  let w' := fst (main env (example_options false true) example_world) in
  classify (voxel_config 0 1 10 true) pair_volume triple_volume = inl ShapeMismatch
  /\ handled w' = [ShapeMismatch]
  /\ files w' = files example_world
  /\ log w' = []
  /\ stack_dirs w' = [].
Proof.
  cbv zeta.
  epose proof (shape_mismatch_stops_the_evaluation
                 (example_report_config (voxel_config 0 1 10 true))
                 (example_env (voxel_config 0 1 10 true) pair_volume triple_volume)
                 (example_options false true) example_world _ pair_volume triple_volume
                 eq_refl eq_refl eq_refl ltac:(vm_compute; congruence))
    as (_ & Hclassify & Hhandled & Hfiles & Hlog & Hstacks).
  rewrite Hhandled, Hfiles, Hlog, Hstacks.
  split; [exact Hclassify | repeat split; reflexivity].
Defined.

(** C8. The false positives and false negatives depend on background
    handling.  The ErrorClassifier fills either set only with background
    handling enabled, which is what the background flag of its
    TolerantEditDistanceErrors records; and the driver (ted.cpp:263-270)
    opens the fps and fns listings only for errors with a background label:
    without one, all it does to the file system is write the splits and the
    merges listings. *)
Theorem false_positives_and_negatives_need_background :
  (forall cfg graph gt_size rec_size,
     let errors := tedErrors (ErrorClassifier cfg graph gt_size rec_size) in
     hasBackgroundLabel errors = false ->
     getFalsePositives errors = [] /\ getFalseNegatives errors = [])
  /\
  (forall (ImageStack label : Type) (env : Env ImageStack label) (opts : Options)
          (errors : TolerantEditDistanceErrors label) (w : World ImageStack),
     hasBackgroundLabel errors = false ->
     write_listings env opts errors w
     = (set_files
          (write_file env (reportPath env opts "merges") (merges_listing env errors)
             (write_file env (reportPath env opts "splits") (splits_listing env errors)
                (files w))) w,
        inr tt)).
Proof.
  split.
  - intros cfg graph gt_size rec_size errors Hbg. subst errors.
    cbn [tedErrors ErrorClassifier hasBackgroundLabel getFalsePositives
         getFalseNegatives] in *.
    rewrite Hbg. split; reflexivity.
  - intros ImageStack label env opts errors w Hbg.
    rewrite write_listings_files. unfold listing_files. rewrite Hbg. reflexivity.
Qed.

Lemma false_positives_and_negatives_witness :
  let cfg := voxel_config 0 1 10 false in
  let env := example_env cfg stray_gt stray_rec in
  let opts := example_options false true in
  let errors := tedErrors (ErrorClassifier cfg (overlap_graph cfg stray_gt stray_rec)
                             (region_size stray_gt) (region_size stray_rec)) in
  (getFalsePositives errors = [] /\ getFalseNegatives errors = [])
  /\ files (fst (write_listings env opts errors example_world))
       !! "out/reconstruction.fps.data" = None.
Proof.
  cbv zeta. split.
  - apply (proj1 false_positives_and_negatives_need_background
             (voxel_config 0 1 10 false)
             (overlap_graph (voxel_config 0 1 10 false) stray_gt stray_rec)
             (region_size stray_gt) (region_size stray_rec)).
    reflexivity.
  - rewrite (proj2 false_positives_and_negatives_need_background
               LabelVolume Label
               (example_env (voxel_config 0 1 10 false) stray_gt stray_rec)
               (example_options false true)
               (tedErrors (ErrorClassifier (voxel_config 0 1 10 false)
                             (overlap_graph (voxel_config 0 1 10 false) stray_gt stray_rec)
                             (region_size stray_gt) (region_size stray_rec)))
               example_world eq_refl).
    vm_compute. reflexivity.
Defined.

(** ** Tab-separated lines *)

Lemma fields_from_tab_free acc s :
  tab_free s = true -> fields_from acc s = [acc +:+ s].
Proof.
  revert acc. induction s as [|a s IH]; intros acc Hfree.
  - cbn. now rewrite string_app_nil_r.
  - cbn in Hfree. apply andb_prop in Hfree as [Ha Hs].
    apply negb_true_iff in Ha. cbn [fields_from]. rewrite Ha.
    rewrite (IH _ Hs), string_app_assoc. reflexivity.
Qed.

Lemma fields_from_cell acc cell rest :
  tab_free cell = true ->
  fields_from acc (cell +:+ tab +:+ rest) = (acc +:+ cell) :: fields_from "" rest.
Proof.
  revert acc. induction cell as [|a cell IH]; intros acc Hfree.
  - change ("" +:+ tab +:+ rest) with (String (Ascii.ascii_of_nat 9) rest).
    cbn [fields_from]. rewrite Ascii.eqb_refl. now rewrite string_app_nil_r.
  - cbn in Hfree. apply andb_prop in Hfree as [Ha Hs].
    apply negb_true_iff in Ha.
    change (String a cell +:+ tab +:+ rest) with (String a (cell +:+ tab +:+ rest)).
    cbn [fields_from]. rewrite Ha.
    rewrite (IH _ Hs), string_app_assoc. reflexivity.
Qed.

Lemma fields_join_tabs (cells : list string) :
  cells <> [] -> Forall (fun c => tab_free c = true) cells ->
  fields (join_tabs cells) = cells.
Proof.
  induction cells as [|c cells IH]; intros Hne Hfree; [contradiction |].
  inversion Hfree as [|? ? Hc Hrest]; subst.
  destruct cells as [|c' cells].
  - cbn [join_tabs]. unfold fields. now rewrite fields_from_tab_free.
  - change (join_tabs (c :: c' :: cells)) with (c +:+ tab +:+ join_tabs (c' :: cells)).
    unfold fields. rewrite fields_from_cell by exact Hc.
    change (fields_from "" (join_tabs (c' :: cells))) with (fields (join_tabs (c' :: cells))).
    rewrite IH by (congruence || exact Hrest). reflexivity.
Qed.

(** A rendered row has as many fields as it has cells, in their order; a
    row without cells is the empty line on both sides. *)
Lemma fields_of_row {A} (render : A -> string) (cols : list A) :
  (forall col, tab_free (render col) = true) ->
  length (fields (join_tabs (map render cols))) = Nat.max 1 (length cols)
  /\ forall i col, cols !! i = Some col ->
       fields (join_tabs (map render cols)) !! i = Some (render col).
Proof.
  intros Hfree. destruct cols as [|c cols].
  - split; [reflexivity |]. intros i col H. discriminate H.
  - rewrite fields_join_tabs.
    + split; [rewrite length_map; cbn; lia |].
      intros i col H. rewrite list_lookup_fmap, H. reflexivity.
    + discriminate.
    + apply List.Forall_forall. intros s Hs. apply in_map_iff in Hs as (col & <- & _).
      apply Hfree.
Qed.

Lemma pretty_N_go_tab_free (x : N) (s : string) :
  tab_free s = true -> tab_free (pretty_N_go x s) = true.
Proof.
  revert s. induction (N.lt_wf_0 x) as [x _ IH]; intros s Hs.
  assert (x = 0 \/ 0 < x)%N as [-> | Hpos] by lia.
  - now rewrite pretty_N_go_0.
  - rewrite pretty_N_go_step by exact Hpos. apply IH.
    + now apply N.div_lt.
    + cbn [tab_free]. rewrite Hs.
      unfold pretty_N_char. repeat case_match; reflexivity.
Qed.

Lemma pretty_nat_tab_free (n : nat) : tab_free (pretty n) = true.
Proof.
  unfold pretty, pretty_nat, pretty, pretty_N.
  destruct (decide (N.of_nat n = 0%N)); [reflexivity |].
  now apply pretty_N_go_tab_free.
Qed.

(** C6. For every configuration of enabled metrics, the header line of the
    ErrorReport and its single-line report have the same number of
    tab-separated fields, and the field of the header at any position names
    the column whose value the report line has at that position, provided
    no column name and no rendered VOI, RAND or detection-overlap value
    contains a tab. *)
Theorem header_and_report_line_columns_align
    (rc : ReportConfig) (p : Parameters) (gt rec : LabelVolume) (c : Classification) :
  (forall col, tab_free (column_name rc col) = true) ->
  tab_free (voi_value rc p gt rec) = true ->
  tab_free (rand_value rc p gt rec) = true ->
  tab_free (detection_overlap_value rc gt rec) = true ->
  length (fields (header_line rc p)) = length (fields (report_line rc p gt rec c))
  /\ forall i col, enabled_columns p !! i = Some col ->
       fields (header_line rc p) !! i = Some (column_name rc col)
       /\ fields (report_line rc p gt rec c) !! i = Some (column_value rc p gt rec c col).
Proof.
  intros Hnames Hvoi Hrand Hdo.
  assert (Hvalues : forall col, tab_free (column_value rc p gt rec c col) = true).
  { intros []; cbn [column_value]; auto using pretty_nat_tab_free. }
  unfold header_line, report_line.
  destruct (fields_of_row (column_name rc) (enabled_columns p) Hnames) as [Hlen1 Hget1].
  destruct (fields_of_row (column_value rc p gt rec c) (enabled_columns p) Hvalues)
    as [Hlen2 Hget2].
  split; [congruence |].
  intros i col Hcol. split; [now apply Hget1 | now apply Hget2].
Qed.

Lemma header_and_report_line_witness :
  let rc := example_report_config (voxel_config 0 1 10 true) in
  let p := setupParameters (example_options false true) in
  let c := ErrorClassifier (voxel_config 0 1 10 true)
             (overlap_graph (voxel_config 0 1 10 true) square_gt square_rec)
             (region_size square_gt) (region_size square_rec) in
  length (fields (header_line rc p)) = length (fields (report_line rc p square_gt square_rec c))
  /\ forall i col, enabled_columns p !! i = Some col ->
       fields (header_line rc p) !! i = Some (column_name rc col)
       /\ fields (report_line rc p square_gt square_rec c) !! i
          = Some (column_value rc p square_gt square_rec c col).
Proof.
  cbv zeta.
  apply (header_and_report_line_columns_align
           (example_report_config (voxel_config 0 1 10 true))
           (setupParameters (example_options false true)) square_gt square_rec).
  - intros []; reflexivity.
  - reflexivity.
  - reflexivity.
  - reflexivity.
Defined.

(** ** The categories of a classification *)














(** ** The scenarios of section 8 of the specification *)

(** A 2x2 region split in two: one split entry, 1 into {1, 2}, no merge,
    no false positive or negative; the split is no boundary disagreement
    and stays at tolerance 1. *)
Example split_square_scenario :
  listings (voxel_config 0 1 10 false) square_gt square_rec
  = Some ([(1, [1; 2])], [], [], [])
  /\ listings (voxel_config 1 1 10 false) square_gt square_rec
     = Some ([(1, [1; 2])], [], [], []).
Proof. split; vm_compute; reflexivity. Qed.

(** A reconstruction region on background only is a false positive with
    background handling, and is in no listing without. *)
Example stray_region_scenario :
  listings (voxel_config 0 1 10 true) stray_gt stray_rec = Some ([], [], [5], [])
  /\ listings (voxel_config 0 1 10 false) stray_gt stray_rec = Some ([], [], [], []).
Proof. split; vm_compute; reflexivity. Qed.

(** A region offset by one voxel is, with background handling, a split and
    a merge at tolerance 0 (either region overlaps its counterpart and the
    background) and a full match at tolerance 1, where the two voxels on
    the displaced boundary are absorbed. *)
Example offset_region_scenario :
  listings (voxel_config 0 1 10 true) offset_gt offset_rec
  = Some ([(1, [2; 0])], [(2, [1; 0])], [], [])
  /\ listings (voxel_config 1 1 10 true) offset_gt offset_rec
     = Some ([], [], [], [])
  /\ map (fun e => (gtLabel e, recLabel e, overlap e))
         (overlap_graph (voxel_config 1 1 10 true) offset_gt offset_rec)
     = [(1, 2, 9); (0, 0, 2)].
Proof. repeat split; vm_compute; reflexivity. Qed.

(** A region in the overlap graph none of whose partners is above the
    threshold (here a half) is matched. *)
Example thirds_scenario :
  let cfg := voxel_config 0 1 2 true in
  let c := ErrorClassifier cfg (overlap_graph cfg thirds_gt thirds_rec)
             (region_size thirds_gt) (region_size thirds_rec) in
  matchedGt c = [1] /\ getSplitLabels (tedErrors c) = [] /\ gt_category_count c 1 = 1.
Proof. cbv zeta. repeat split; vm_compute; reflexivity. Qed.

(** ** Lists *)



Lemma filter_length_mono {A} (f g : A -> bool) (l : list A) :
  (forall x, In x l -> f x = true -> g x = true) ->
  length (List.filter f l) <= length (List.filter g l).
Proof.
  induction l as [|x l IH]; intros H; [reflexivity |].
  assert (length (List.filter f l) <= length (List.filter g l)) as Hl.
  { apply IH. intros y Hy. apply H. now right. }
  cbn [List.filter]. destruct (f x) eqn:Hf.
  - rewrite (H x) by (auto; now left). cbn [length]. lia.
  - destruct (g x); cbn [length]; lia.
Qed.

Lemma filter_positive {A} (f : A -> bool) (l : list A) :
  1 <= length (List.filter f l) <-> exists x, In x l /\ f x = true.
Proof.
  split.
  - destruct (List.filter f l) as [|x xs] eqn:H; cbn [length]; [lia |].
    intros _. exists x. apply filter_In. rewrite H. now left.
  - intros (x & Hx & Hf).
    assert (In x (List.filter f l)) as Hin by (apply filter_In; auto).
    destruct (List.filter f l); [destruct Hin | cbn [length]; lia].
Qed.





(** ** Voxels *)

Lemma In_imap {A B} (f : nat -> A -> B) (l : list A) (y : B) :
  In y (imap f l) <-> exists i x, y = f i x /\ l !! i = Some x.
Proof. rewrite <- list_elem_of_In. apply elem_of_lookup_imap. Qed.

(** [voxels] lists exactly the positions inside the volume, each with the
    label stored there. *)
Lemma voxels_label_at (V : LabelVolume) (p : Position) (l : Label) :
  In (p, l) (voxels V) <-> label_at V p = Some l.
Proof.
  destruct p as [[x y] z]. unfold voxels, label_at. rewrite in_concat. split.
  - intros (vs & Hvs & Hin). apply In_imap in Hvs as (z' & slice & -> & Hslice).
    apply in_concat in Hin as (ws & Hws & Hin).
    apply In_imap in Hws as (y' & row & -> & Hrow).
    apply In_imap in Hin as (x' & l' & Heq & Hl').
    inversion Heq; subst. now rewrite Hslice, Hrow.
  - intros H. destruct (slices V !! z) as [slice|] eqn:Hslice; [| discriminate].
    destruct (slice !! y) as [row|] eqn:Hrow; [| discriminate].
    eexists. split.
    + apply In_imap. exists z, slice. split; [reflexivity | exact Hslice].
    + apply in_concat. eexists. split.
      * apply In_imap. exists y, row. split; [reflexivity | exact Hrow].
      * apply In_imap. exists x, l. split; [reflexivity | exact H].
Qed.

Lemma voxels_functional (V : LabelVolume) (p : Position) (l l' : Label) :
  In (p, l) (voxels V) -> In (p, l') (voxels V) -> l = l'.
Proof. rewrite !voxels_label_at. congruence. Qed.

(** The labels of a volume are the labels of its voxels, and are the
    labels with nonzero voxel count. *)
Lemma labels_In (V : LabelVolume) (l : Label) :
  In l (labels V) <-> exists p, In (p, l) (voxels V).
Proof.
  unfold labels. rewrite <- list_elem_of_In, elem_of_remove_dups, list_elem_of_In, in_map_iff.
  split.
  - intros ([p l'] & Hl & Hin). cbn [snd] in Hl. subst. eauto.
  - intros (p & Hin). exists (p, l). auto.
Qed.




(** ** The overlap graph *)
Section Graph_facts.
Variable cfg : TedConfig.
Variables gt rec : LabelVolume.

(** A pair overlaps within tolerance when a voxel of the reconstruction
    label lies on the ground-truth label and is not absorbed. *)
Lemma tolerant_overlap_positive (g r : Label) :
  1 <= tolerant_overlap cfg gt rec g r <->
  exists p, In (p, r) (voxels rec) /\ label_at gt p = Some g
            /\ absorbed cfg gt rec g r p = false.
Proof.
  unfold tolerant_overlap. rewrite filter_positive. split.
  - intros ([p l] & Hin & Hcond). cbn [fst snd] in Hcond.
    apply andb_prop in Hcond as [Hcond Habs]. apply andb_prop in Hcond as [Hl Hco].
    apply Nat.eqb_eq in Hl. subst l. apply negb_true_iff in Habs.
    exists p. split; [exact Hin | split; [| exact Habs]].
    unfold co_occurs in Hco. destruct (label_at gt p) as [l|]; [| discriminate].
    apply Nat.eqb_eq in Hco. now subst.
  - intros (p & Hin & Hg & Habs). exists (p, r). split; [exact Hin |].
    cbn [fst snd]. unfold co_occurs. now rewrite Nat.eqb_refl, Hg, Nat.eqb_refl, Habs.
Qed.

Lemma tolerant_overlap_labels (g r : Label) :
  1 <= tolerant_overlap cfg gt rec g r -> In g (labels gt) /\ In r (labels rec).
Proof.
  intros H. apply tolerant_overlap_positive in H as (p & Hin & Hg & _).
  split; apply labels_In; exists p; [now apply voxels_label_at | exact Hin].
Qed.

(** The tolerant overlap of a pair is within its exact overlap, hence
    within the size of the reconstruction region. *)
Lemma tolerant_overlap_le_exact (g r : Label) :
  tolerant_overlap cfg gt rec g r <= exact_overlap gt rec g r.
Proof.
  unfold tolerant_overlap, exact_overlap. apply filter_length_mono.
  intros v _ H. now apply andb_prop in H as [H _].
Qed.

Lemma exact_overlap_le_rec_size (g r : Label) :
  exact_overlap gt rec g r <= region_size rec r.
Proof.
  unfold exact_overlap, region_size. apply filter_length_mono.
  intros v _ H. now apply andb_prop in H as [H _].
Qed.

Lemma overlap_graph_In (e : OverlapEntry) :
  In e (overlap_graph cfg gt rec) <->
  e = overlap_entry cfg gt rec (gtLabel e) (recLabel e)
  /\ 1 <= tolerant_overlap cfg gt rec (gtLabel e) (recLabel e)
  /\ considered cfg (gtLabel e) (recLabel e) = true.
Proof.
  unfold overlap_graph. rewrite filter_In, in_flat_map, andb_true_iff. split.
  - intros [(g & Hg & Hin) [Hov Hcons]]. apply in_map_iff in Hin as (r & <- & Hr).
    cbn [overlap_entry gtLabel recLabel overlap] in *.
    apply Nat.leb_le in Hov. auto.
  - intros (He & Hov & Hcons).
    destruct (tolerant_overlap_labels _ _ Hov) as [Hg Hr]. split.
    + exists (gtLabel e). split; [exact Hg |]. apply in_map_iff.
      exists (recLabel e). split; [now symmetry | exact Hr].
    + rewrite He at 1. cbn [overlap_entry overlap]. split; [now apply Nat.leb_le | exact Hcons].
Qed.





End Graph_facts.

(** ** Volumes of the same dimensions *)





(** ** The sizes of the regions *)

Lemma NoDup_fst_imap {A B C} (g : nat -> A -> C * B) (l : list A) :
  (forall i j a b, fst (g i a) = fst (g j b) -> i = j) ->
  NoDup (map fst (imap g l)).
Proof.
  revert g. induction l as [|a l IH]; intros g Hg; [constructor |].
  cbn [imap map]. constructor.
  - intros Hin. apply list_elem_of_In, in_map_iff in Hin as (v & Hv & Hin).
    apply In_imap in Hin as (i & b & -> & _).
    unfold compose in Hv. apply Hg in Hv. discriminate.
  - apply IH. intros i j x y H. unfold compose in H. apply Hg in H. lia.
Qed.

Lemma NoDup_fst_concat_imap {A B C} (f : nat -> A -> list (C * B)) (tag : C -> nat)
    (l : list A) :
  (forall i x v, In v (f i x) -> tag (fst v) = i) ->
  (forall i x, NoDup (map fst (f i x))) ->
  NoDup (map fst (concat (imap f l))).
Proof.
  revert f tag. induction l as [|a l IH]; intros f tag Htag Hnd; [constructor |].
  cbn [imap concat]. rewrite map_app. apply NoDup_app. split; [apply Hnd | split].
  - intros p Hp Hq.
    apply list_elem_of_In, in_map_iff in Hp as (v & <- & Hv).
    apply list_elem_of_In, in_map_iff in Hq as (v' & Heq & Hv').
    apply in_concat in Hv' as (vs & Hvs & Hv'). apply In_imap in Hvs as (i & x & -> & _).
    unfold compose in Hv'. apply Htag in Hv, Hv'. rewrite Heq in Hv'. congruence.
  - apply (IH (fun i => f (S i)) (fun c => pred (tag c))).
    + intros i x v Hv. now rewrite (Htag (S i) x v Hv).
    + intros i x. apply Hnd.
Qed.

Lemma voxels_positions_NoDup (V : LabelVolume) : NoDup (map fst (voxels V)).
Proof.
  unfold voxels.
  apply (NoDup_fst_concat_imap _ (fun p : Position => snd p)).
  - intros z slice v Hv. apply in_concat in Hv as (vs & Hvs & Hv).
    apply In_imap in Hvs as (y & row & -> & _). apply In_imap in Hv as (x & l & -> & _).
    reflexivity.
  - intros z slice.
    apply (NoDup_fst_concat_imap _ (fun p : Position => snd (fst p))).
    + intros y row v Hv. apply In_imap in Hv as (x & l & -> & _). reflexivity.
    + intros y row. apply NoDup_fst_imap. intros i j a b H. cbn [fst] in H. congruence.
Qed.

Lemma NoDup_fst_filter {A B} (P : A * B -> bool) (l : list (A * B)) :
  NoDup (map fst l) -> NoDup (map fst (List.filter P l)).
Proof.
  induction l as [|v l IH]; [auto |].
  cbn [map List.filter]. rewrite NoDup_cons. intros [Hv Hl].
  destruct (P v); [| auto]. cbn [map]. apply NoDup_cons. split; [| auto].
  intros Hin. apply Hv. apply list_elem_of_In, in_map_iff in Hin as (v' & Heq & Hin).
  apply filter_In in Hin as [Hin _]. apply list_elem_of_In, in_map_iff. eauto.
Qed.

(** The exact overlap of a pair is within the size of the ground-truth
    region: different voxels of the reconstruction lie on different voxels
    of the ground truth. *)
Lemma exact_overlap_le_gt_size (gt rec : LabelVolume) (g r : Label) :
  exact_overlap gt rec g r <= region_size gt g.
Proof.
  unfold exact_overlap, region_size.
  set (L := List.filter (fun v : Position * Label => (snd v =? r) && co_occurs gt g (fst v))
                        (voxels rec)).
  assert (length L = length (map (fun p : Position => (p, g)) (map fst L))) as ->
    by now rewrite !length_map.
  apply List.NoDup_incl_length.
  - apply NoDup_ListNoDup. apply (NoDup_fmap_2 (fun p : Position => (p, g))).
    apply NoDup_fst_filter, voxels_positions_NoDup.
  - intros v Hv. apply in_map_iff in Hv as (p & <- & Hp).
    apply in_map_iff in Hp as ([p' l] & Heq & Hin). cbn [fst] in Heq. subst p'.
    apply filter_In in Hin as [_ Hcond]. cbn [fst snd] in Hcond.
    apply andb_prop in Hcond as [_ Hco]. unfold co_occurs in Hco.
    destruct (label_at gt p) as [l'|] eqn:Hl; [| discriminate].
    apply Nat.eqb_eq in Hco. subst l'.
    apply filter_In. split; [now apply voxels_label_at | apply Nat.eqb_refl].
Qed.

(** The invariant of an OverlapEntry (section 3): every entry of the
    overlap graph counts at least one voxel, and no more than either of
    its regions has. *)
Lemma overlap_graph_invariant cfg gt rec (e : OverlapEntry) :
  In e (overlap_graph cfg gt rec) ->
  1 <= overlap e
  /\ overlap e <= rawOverlap e
  /\ rawOverlap e <= Nat.min (region_size gt (gtLabel e)) (region_size rec (recLabel e)).
Proof.
  intros He. apply overlap_graph_In in He as (-> & Hov & _).
  cbn [overlap_entry overlap rawOverlap gtLabel recLabel] in *.
  split; [exact Hov |]. split; [apply tolerant_overlap_le_exact |].
  apply Nat.min_glb; [apply exact_overlap_le_gt_size | apply exact_overlap_le_rec_size].
Qed.

(** ** Identical volumes *)







(** The identity case on the volume of the first scenario, whose regions
    touch, at tolerance 0 and at tolerance 1. *)
Example identical_square_scenario :
  listings (voxel_config 0 1 10 true) square_rec square_rec = Some ([], [], [], [])
  /\ listings (voxel_config 1 1 10 true) square_rec square_rec = Some ([], [], [], []).
Proof. split; vm_compute; reflexivity. Qed.

(** ** Growing the tolerance radius *)












(** * Further properties of the driver *)

(** ** readImageStackFromOption *)

Lemma find_first_of_colon_free (s : string) :
  colon_free s = true -> find_first_of s colon = None.
Proof.
  induction s as [|a s IH]; [reflexivity |].
  cbn [colon_free find_first_of]. intros H. apply andb_prop in H as [Ha Hs].
  apply negb_true_iff in Ha. rewrite Ha, (IH Hs). reflexivity.
Qed.

Lemma find_first_of_colon (s : string) :
  colon_free s = false -> exists n, find_first_of s colon = Some n.
Proof.
  induction s as [|a s IH]; [discriminate |].
  cbn [colon_free find_first_of]. destruct (Ascii.eqb a colon); [eauto |].
  cbn [negb andb]. intros H. destruct (IH H) as [n Hn]. rewrite Hn. eauto.
Qed.

Lemma find_first_of_split (f d : string) :
  colon_free f = true ->
  find_first_of (f +:+ String colon d) colon = Some (String.length f).
Proof.
  induction f as [|a f IH]; intros H.
  - change ("" +:+ String colon d) with (String colon d).
    cbn [find_first_of String.length]. now rewrite Ascii.eqb_refl.
  - cbn [colon_free] in H. apply andb_prop in H as [Ha Hf].
    apply negb_true_iff in Ha.
    change (String a f +:+ String colon d) with (String a (f +:+ String colon d)).
    cbn [find_first_of String.length]. now rewrite Ha, (IH Hf).
Qed.

Lemma substring_all (s : string) : String.substring 0 (String.length s) s = s.
Proof.
  induction s as [|a s IH]; [reflexivity |].
  cbn [String.length String.substring]. now rewrite IH.
Qed.

Lemma substring_prefix (f s : string) :
  String.substring 0 (String.length f) (f +:+ s) = f.
Proof.
  induction f as [|a f IH].
  - cbn [String.length]. now destruct s.
  - change (String a f +:+ s) with (String a (f +:+ s)).
    cbn [String.length String.substring]. now rewrite IH.
Qed.

Lemma substring_skip (f s : string) (n m : nat) :
  String.substring (String.length f + n) m (f +:+ s) = String.substring n m s.
Proof.
  induction f as [|a f IH]; [reflexivity |].
  change (String a f +:+ s) with (String a (f +:+ s)).
  cbn [String.length Nat.add String.substring]. exact IH.
Qed.

Lemma string_length_app (a b : string) :
  String.length (a +:+ b) = String.length a + String.length b.
Proof.
  induction a as [|x a IH]; [reflexivity |].
  change (String x a +:+ b) with (String x (a +:+ b)).
  cbn [String.length]. now rewrite IH.
Qed.

(** X1. [readImageStackFromOption] dispatches on the first colon of the
    option: an option without colon is handed whole to the directory
    reader, in any build; in a build with HDF5 an option [file:dataset] is
    read from the HDF5 file named before the first colon, the dataset being
    everything after it, later colons included. *)
Theorem readImageStackFromOption_dispatch
    {ImageStack label : Type} (env : Env ImageStack label) (w : World ImageStack) :
  (forall option,
     colon_free option = true ->
     readImageStackFromOption env option w
     = (add_event (EvReadStack option) w, read_directory env option))
  /\
  (forall file dataset,
     colon_free file = true ->
     have_hdf5 env = true ->
     readImageStackFromOption env (file +:+ ":" +:+ dataset) w
     = (add_event (EvReadStack (file +:+ ":" +:+ dataset)) w,
        raised_by_vigra (read_hdf5 env file dataset))).
Proof.
  split.
  - intros option Hfree. unfold readImageStackFromOption.
    now rewrite (find_first_of_colon_free option Hfree).
  - intros file dataset Hfree Hhdf. unfold readImageStackFromOption.
    change (":" +:+ dataset) with (String colon dataset).
    rewrite (find_first_of_split file dataset Hfree), Hhdf.
    rewrite substring_prefix, string_length_app.
    cbn [String.length].
    replace (String.length file + S (String.length dataset) - (String.length file + 1))
      with (String.length dataset) by lia.
    rewrite substring_skip. cbn [String.substring].
    now rewrite substring_all.
Qed.

Lemma readImageStackFromOption_dispatch_witness :
  let env := example_hdf5_env (voxel_config 0 1 10 true) square_gt square_rec in
  readImageStackFromOption env "reconstruction" example_world
    = (add_event (EvReadStack "reconstruction") example_world, inr square_rec)
  /\ readImageStackFromOption env ("stack.h5" +:+ ":" +:+ "volumes/labels") example_world
     = (add_event (EvReadStack "stack.h5:volumes/labels") example_world, inr square_gt).
Proof.
  cbv zeta. split.
  - apply (proj1 (readImageStackFromOption_dispatch
                    (example_hdf5_env (voxel_config 0 1 10 true) square_gt square_rec)
                    example_world) "reconstruction").
    reflexivity.
  - apply (proj2 (readImageStackFromOption_dispatch
                    (example_hdf5_env (voxel_config 0 1 10 true) square_gt square_rec)
                    example_world) "stack.h5" "volumes/labels");
      reflexivity.
Defined.

(** X2. In a build without HDF5, an option that contains a colon is never
    read: [readImageStackFromOption] raises a usage error, calls no reader
    and leaves the world as it is. *)
Theorem readImageStackFromOption_without_hdf5
    {ImageStack label : Type} (env : Env ImageStack label) (option : string)
    (w : World ImageStack) :
  colon_free option = false ->
  have_hdf5 env = false ->
  exists msg, readImageStackFromOption env option w = (w, inl (Exception (UsageError msg))).
Proof.
  intros Hcolon Hhdf. unfold readImageStackFromOption.
  destruct (find_first_of_colon option Hcolon) as [n Hn]. rewrite Hn, Hhdf.
  eexists. reflexivity.
Qed.

Lemma readImageStackFromOption_without_hdf5_witness :
  exists msg,
    readImageStackFromOption
      (example_env (voxel_config 0 1 10 true) square_gt square_rec)
      "stack.h5:volumes/labels" example_world
    = (example_world, inl (Exception (UsageError msg))).
Proof.
  apply (readImageStackFromOption_without_hdf5
           (example_env (voxel_config 0 1 10 true) square_gt square_rec)
           "stack.h5:volumes/labels" example_world); reflexivity.
Defined.

(** ** Runs of [main] that stop early *)

(** X3. In a run that is not header-only the ground truth is read first;
    when it cannot be read the reconstruction is not read at all.  A read
    that fails with an [Exception] of the project ends the run in the
    handler of [main].  A read that fails with any other exception passes
    that handler: none runs and the process terminates on the exception;
    every failure of an HDF5 read is of this kind, being vigra's.  Either
    way the world is as the failed reader left it: no input is wired, no
    output is requested, no text file is changed. *)
Theorem failed_read_stops_the_run
    {ImageStack label : Type} (env : Env ImageStack label) (opts : Options)
    (w : World ImageStack) :
  isSet (optionPlotFileHeader opts) = false ->
  let stopped (w' : World ImageStack) (t : thrown) :=
    (main env opts w
     = match t with
       | Exception e => (add_handled e w', Exit 0%Z)
       | runtime_error what => (w', Terminate what)
       end
     /\ files w' = files w /\ handled w' = handled w) in
  (forall wa t,
     readImageStackFromOption env (asString (optionGroundTruth opts)) w = (wa, inl t) ->
     stopped wa t)
  /\
  (forall wa groundTruth wb t,
     readImageStackFromOption env (asString (optionGroundTruth opts)) w
       = (wa, inr groundTruth) ->
     readImageStackFromOption env (asString (optionReconstruction opts)) wa = (wb, inl t) ->
     stopped wb t)
  /\
  (forall option w0 wa t,
     have_hdf5 env = true ->
     colon_free option = false ->
     readImageStackFromOption env option w0 = (wa, inl t) ->
     exists what, t = runtime_error what).
Proof.
  intros Hheader. cbv zeta. split; [| split].
  - intros wa t Hgt.
    pose proof (readImageStackFromOption_files env
                  (asString (optionGroundTruth opts)) w) as [Hf Hh].
    rewrite Hgt in Hf, Hh. cbn [fst] in Hf, Hh.
    split; [| split; assumption].
    unfold main, main_try. rewrite Hheader. unfold setup_inputs, bind.
    rewrite Hgt. now destruct t.
  - intros wa groundTruth wb t Hgt Hrec.
    pose proof (readImageStackFromOption_files env
                  (asString (optionGroundTruth opts)) w) as [Hf1 Hh1].
    pose proof (readImageStackFromOption_files env
                  (asString (optionReconstruction opts)) wa) as [Hf2 Hh2].
    rewrite Hgt in Hf1, Hh1. rewrite Hrec in Hf2, Hh2. cbn [fst] in *.
    split; [| split; congruence].
    unfold main, main_try. rewrite Hheader. unfold setup_inputs, bind.
    rewrite Hgt, Hrec. now destruct t.
  - intros option w0 wa t Hhdf Hcolon.
    unfold readImageStackFromOption.
    destruct (find_first_of_colon option Hcolon) as [n ->]. rewrite Hhdf.
    unfold raised_by_vigra, tell, lift, effect, bind.
    destruct (read_hdf5 env _ _) as [what|stack]; intros [= _ <-]. eauto.
Qed.

Lemma failed_read_witness :
  main (example_hdf5_env (voxel_config 0 1 10 true) square_gt square_rec)
       (example_options false true) example_world
    = (add_handled (OtherError "no such directory")
         (add_event (EvReadStack "groundtruth") example_world), Exit 0%Z)
  /\ main (example_hdf5_env (voxel_config 0 1 10 true) square_gt square_rec)
          example_hdf5_options example_world
     = (add_event (EvReadStack "stack.h5:volumes/missing") example_world,
        Terminate "no such dataset").
Proof.
  split.
  - apply (proj1 (failed_read_stops_the_run
                    (example_hdf5_env (voxel_config 0 1 10 true) square_gt square_rec)
                    (example_options false true) example_world eq_refl)
             _ (Exception (OtherError "no such directory"))).
    reflexivity.
  - apply (proj1 (failed_read_stops_the_run
                    (example_hdf5_env (voxel_config 0 1 10 true) square_gt square_rec)
                    example_hdf5_options example_world eq_refl)
             _ (runtime_error "no such dataset")).
    reflexivity.
Defined.

(** X4. The handler around the corrected reconstruction absorbs
    NoSuchOutput only: any other exception raised by that request reaches
    the handler of [main] at once; no stack is written and the human
    readable report is not even requested. *)
Theorem other_exception_of_the_correction_stops_the_run
    {ImageStack label : Type} (env : Env ImageStack label) (opts : Options)
    (w w1 : World ImageStack) gt rec e :
  isSet (optionPlotFileHeader opts) = false ->
  setup_inputs env opts w = (w1, inr (gt, rec)) ->
  out_corrected (report env) (setupParameters opts) gt rec = inl e ->
  is_NoSuchOutput e = false ->
  main env opts w
  = (add_handled e (add_event (EvGetOutput "ted corrected reconstruction") w1), Exit 0%Z).
Proof.
  intros Hheader Hsetup Hcorr He.
  unfold main, main_try. rewrite Hheader.
  unfold bind. rewrite Hsetup. cbv beta iota. cbn [fst snd].
  unfold save_corrected, try_NoSuchOutput, getOutput, raised, tell, lift, effect, bind.
  rewrite Hcorr, He. reflexivity.
Qed.

Lemma other_exception_of_the_correction_witness :
  main (example_env (voxel_config 0 1 10 true) pair_volume triple_volume)
       (example_options false true) example_world
  = (add_handled ShapeMismatch
       (add_event (EvGetOutput "ted corrected reconstruction")
          (fst (setup_inputs (example_env (voxel_config 0 1 10 true) pair_volume triple_volume)
                  (example_options false true) example_world))), Exit 0%Z).
Proof.
  apply (other_exception_of_the_correction_stops_the_run
           (example_env (voxel_config 0 1 10 true) pair_volume triple_volume)
           (example_options false true) example_world _ pair_volume triple_volume);
    reflexivity.
Defined.

(** X5. NoSuchOutput is absorbed for the corrected reconstruction only.
    When the listings are requested and the "ted errors" output does not
    exist, the exception reaches the handler of [main]: the human readable
    report has been logged by then, but no listing file is opened and the
    single-line report is neither requested nor appended to the plot file,
    given or not. *)
Theorem missing_ted_errors_stop_the_run
    {ImageStack label : Type} (env : Env ImageStack label) (opts : Options)
    (w w1 : World ImageStack) gt rec text :
  isSet (optionPlotFileHeader opts) = false ->
  setup_inputs env opts w = (w1, inr (gt, rec)) ->
  out_corrected (report env) (setupParameters opts) gt rec = inl NoSuchOutput ->
  out_human (report env) (setupParameters opts) gt rec = inr text ->
  isSet (optionTedErrorFiles opts) = true ->
  out_errors (report env) (setupParameters opts) gt rec = inl NoSuchOutput ->
  main env opts w
  = (add_handled NoSuchOutput
       (add_event (EvGetOutput "ted errors")
          (add_log LogUser (text +:+ endl)
             (add_event (EvGetOutput "human readable error report")
                (add_event (EvGetOutput "ted corrected reconstruction") w1)))), Exit 0%Z).
Proof.
  intros Hheader Hsetup Hcorr Hhuman Hted Herr.
  unfold main, main_try. rewrite Hheader.
  unfold bind. rewrite Hsetup. cbv beta iota. cbn [fst snd].
  unfold save_corrected, write_report, write_error_files, try_NoSuchOutput, getOutput, raised,
    tell, lift, effect, bind, ret.
  rewrite Hcorr. change (is_NoSuchOutput NoSuchOutput) with true. cbv beta iota.
  rewrite Hhuman. cbv beta iota. rewrite Hted. unfold when, bind.
  rewrite Herr. reflexivity.
Qed.

Lemma missing_ted_errors_witness :
  let w' := fst (main (example_env_without_ted square_gt square_rec)
                   (example_options false false) example_world) in
  handled w' = [NoSuchOutput]
  /\ log w' = [(LogUser, "VOI: -" +:+ endl)]
  /\ files w' = files example_world.
Proof.
  cbv zeta.
  rewrite (missing_ted_errors_stop_the_run
             (example_env_without_ted square_gt square_rec)
             (example_options false false) example_world
             (fst (setup_inputs (example_env_without_ted square_gt square_rec)
                     (example_options false false) example_world))
             square_gt square_rec "VOI: -"
             eq_refl eq_refl eq_refl eq_refl eq_refl eq_refl).
  repeat split; reflexivity.
Defined.

(** ** Runs of [main] that complete *)

Lemma main_after_correction
    {ImageStack label : Type} (env : Env ImageStack label) (opts : Options)
    (w w1 : World ImageStack) gt rec corrected text
    (errors : TolerantEditDistanceErrors label) line :
  let parameters := setupParameters opts in
  isSet (optionPlotFileHeader opts) = false ->
  setup_inputs env opts w = (w1, inr (gt, rec)) ->
  out_corrected (report env) parameters gt rec = inr corrected ->
  out_human (report env) parameters gt rec = inr text ->
  (isSet (optionTedErrorFiles opts) = true ->
   out_errors (report env) parameters gt rec = inr errors) ->
  (isSet (optionPlotFile opts) = true ->
   out_line (report env) parameters gt rec = inr line) ->
  main env opts w =
    (let directory := buildCorrectedPath env (asString (optionTedErrorFiles opts))
                        (asString (optionReconstruction opts)) in
     let w2 := add_log LogUser (text +:+ endl)
                 (add_event (EvGetOutput "human readable error report")
                    (add_stack_dir directory corrected
                       (add_event (EvWriteStack directory)
                          (add_event (EvGetOutput "ted corrected reconstruction") w1)))) in
     let w3 := if isSet (optionTedErrorFiles opts)
               then add_event (EvGetOutput "ted errors")
                      (set_files (listing_files env opts errors (files w2)) w2)
               else w2 in
     if isSet (optionPlotFile opts)
     then add_event (EvGetOutput "error report")
            (set_files (append_file env (asString (optionPlotFile opts))
                          (line +:+ endl) (files w3)) w3)
     else w3,
     Exit 0%Z).
Proof.
  intros parameters Hheader Hsetup Hcorr Hhuman Herrors Hline.
  unfold main, main_try. rewrite Hheader. fold parameters.
  unfold bind. rewrite Hsetup. cbv beta iota. cbn [fst snd].
  unfold save_corrected, write_report, write_stack, try_NoSuchOutput, getOutput, raised, tell,
    lift, effect, bind, ret.
  rewrite Hcorr. cbv beta iota. rewrite Hhuman. cbv beta iota.
  destruct (isSet (optionTedErrorFiles opts)) eqn:Hted.
  - rewrite (write_error_files_ok env opts parameters gt rec errors _ Hted (Herrors eq_refl)).
    cbv beta iota.
    destruct (isSet (optionPlotFile opts)) eqn:Hplot.
    + rewrite (write_plot_line_ok env opts parameters gt rec line _ Hplot (Hline eq_refl)).
      reflexivity.
    + unfold write_plot_line. rewrite Hplot. reflexivity.
  - unfold write_error_files. rewrite Hted. unfold when at 1. unfold ret at 1.
    cbv beta iota.
    destruct (isSet (optionPlotFile opts)) eqn:Hplot.
    + rewrite (write_plot_line_ok env opts parameters gt rec line _ Hplot (Hline eq_refl)).
      reflexivity.
    + unfold write_plot_line. rewrite Hplot. reflexivity.
Qed.

(** X6. When the corrected reconstruction is available, [main] writes it,
    before anything is reported, to the directory "corrected_" followed by
    the stem of the reconstruction path, under the string of the
    tedErrorFiles option, whether that option was given or not; the rest
    of the run, the log, the listings and the plot line, is what it is
    without a corrected reconstruction. *)
Theorem corrected_reconstruction_is_saved
    {ImageStack label : Type} (env : Env ImageStack label) (opts : Options)
    (w w1 : World ImageStack) gt rec corrected text
    (errors : TolerantEditDistanceErrors label) line :
  let parameters := setupParameters opts in
  isSet (optionPlotFileHeader opts) = false ->
  setup_inputs env opts w = (w1, inr (gt, rec)) ->
  out_corrected (report env) parameters gt rec = inr corrected ->
  out_human (report env) parameters gt rec = inr text ->
  (isSet (optionTedErrorFiles opts) = true ->
   out_errors (report env) parameters gt rec = inr errors) ->
  (isSet (optionPlotFile opts) = true ->
   out_line (report env) parameters gt rec = inr line) ->
  let w' := fst (main env opts w) in
  stack_dirs w'
  = (stack_dirs w1
     ++ [(path_append env (asString (optionTedErrorFiles opts))
            ("corrected_" +:+ stem env (asString (optionReconstruction opts))),
          corrected)])%list
  /\ handled w' = handled w1
  /\ log w' = (log w1 ++ [(LogUser, text +:+ endl)])%list
  /\ files w' =
       let listed := if isSet (optionTedErrorFiles opts)
                     then listing_files env opts errors (files w1)
                     else files w1 in
       if isSet (optionPlotFile opts)
       then append_file env (asString (optionPlotFile opts)) (line +:+ endl) listed
       else listed.
Proof.
  intros parameters Hheader Hsetup Hcorr Hhuman Herrors Hline.
  rewrite (main_after_correction env opts w w1 gt rec corrected text errors line
             Hheader Hsetup Hcorr Hhuman Herrors Hline).
  destruct (isSet (optionTedErrorFiles opts)), (isSet (optionPlotFile opts));
    cbn; repeat split; reflexivity.
Qed.

Lemma corrected_reconstruction_witness :
  let env := example_env (voxel_config 0 1 10 true) square_gt square_rec in
  let w' := fst (main env (example_options false true) example_world) in
  stack_dirs w' = [("out/corrected_reconstruction", square_rec)]
  /\ handled w' = [].
Proof.
  cbv zeta.
  epose proof (corrected_reconstruction_is_saved
                 (example_env (voxel_config 0 1 10 true) square_gt square_rec)
                 (example_options false true) example_world
                 _ square_gt square_rec _ _ _ _
                 eq_refl eq_refl eq_refl eq_refl (fun _ => eq_refl) (fun _ => eq_refl))
    as (Hstacks & Hhandled & _).
  rewrite Hstacks, Hhandled. split; reflexivity.
Defined.

(** ** The files a run leaves alone *)
Section Frame.
Context {ImageStack label : Type}.
Variable env : Env ImageStack label.
Variable opts : Options.
Variable p : string.
Local Open Scope ted_scope.

Lemma keeps_unchanged {A} (c : M ImageStack A) :
  (forall w w' r, c w = (w', r) -> files w' = files w) -> keeps_file p c.
Proof. intros H w w' r Hc. now rewrite (H w w' r Hc). Qed.

Lemma keeps_ret {A} (a : A) : keeps_file p (ret (ImageStack := ImageStack) a).
Proof. apply keeps_unchanged. unfold ret. now intros w w' r [= <- _]. Qed.

Lemma keeps_lift {A} (r : thrown + A) : keeps_file p (lift (ImageStack := ImageStack) r).
Proof. apply keeps_unchanged. unfold lift. now intros w w' r' [= <- _]. Qed.

Lemma keeps_tell (e : event) : keeps_file p (tell (ImageStack := ImageStack) e).
Proof. apply keeps_unchanged. unfold tell, effect. now intros w w' r [= <- _]. Qed.

Lemma keeps_bind {A B} (c : M ImageStack A) (k : A -> M ImageStack B) :
  keeps_file p c -> (forall a, keeps_file p (k a)) -> keeps_file p (bind c k).
Proof.
  intros Hc Hk w w' r. unfold bind.
  destruct (c w) as [w1 [e|a]] eqn:Hcw.
  - intros [= <- _]. exact (Hc w w1 _ Hcw).
  - intros Hka. rewrite (Hk a w1 w' r Hka). exact (Hc w w1 _ Hcw).
Qed.

Lemma keeps_try (c : M ImageStack unit) :
  keeps_file p c -> keeps_file p (try_NoSuchOutput c).
Proof.
  intros Hc w w' r. unfold try_NoSuchOutput.
  destruct (c w) as [w1 [[e|what]|[]]] eqn:Hcw.
  - destruct (is_NoSuchOutput e); intros [= <- _]; exact (Hc w w1 _ Hcw).
  - intros [= <- _]. exact (Hc w w1 _ Hcw).
  - intros [= <- _]. exact (Hc w w1 _ Hcw).
Qed.

Lemma keeps_when (b : bool) (c : M ImageStack unit) :
  (b = true -> keeps_file p c) -> keeps_file p (when b c).
Proof. destruct b; cbn [when]; [auto | intros _; apply keeps_ret]. Qed.

Lemma keeps_foreach {A} (xs : list A) (body : A -> M ImageStack unit) :
  (forall x, keeps_file p (body x)) -> keeps_file p (foreach xs body).
Proof.
  intros Hbody. induction xs as [|x xs IH]; cbn [foreach].
  - apply keeps_ret.
  - apply keeps_bind; [apply Hbody | intros _; exact IH].
Qed.

Lemma keeps_getOutput {A} (name : string) (r : exn + A) :
  keeps_file p (getOutput (ImageStack := ImageStack) name r).
Proof.
  unfold getOutput. apply keeps_bind; [apply keeps_tell | intros _; apply keeps_lift].
Qed.

Lemma keeps_put (f : ofstream) (s : string) :
  elsewhere p f -> keeps_file p (put (ImageStack := ImageStack) f s).
Proof.
  destruct f as [path|]; cbn [elsewhere put]; intros Hne.
  - unfold effect. intros w w' r [= <- _]. cbn [files set_files].
    now apply lookup_insert_ne.
  - apply keeps_ret.
Qed.

Lemma keeps_open_trunc {B} (path : string) (k : ofstream -> M ImageStack B) :
  p <> path -> (forall f, elsewhere p f -> keeps_file p (k f)) ->
  keeps_file p (bind (open_trunc env path) k).
Proof.
  intros Hne Hk w w' r. unfold bind, open_trunc.
  destruct (can_open env path).
  - intros Hrun. rewrite (Hk (Some path) Hne _ w' r Hrun). cbn [files set_files].
    now apply lookup_insert_ne.
  - intros Hrun. exact (Hk None I _ w' r Hrun).
Qed.

Lemma keeps_open_app {B} (path : string) (k : ofstream -> M ImageStack B) :
  p <> path -> (forall f, elsewhere p f -> keeps_file p (k f)) ->
  keeps_file p (bind (open_app env path) k).
Proof.
  intros Hne Hk w w' r. unfold bind, open_app.
  destruct (can_open env path).
  - intros Hrun. rewrite (Hk (Some path) Hne _ w' r Hrun). cbn [files set_files].
    now apply lookup_insert_ne.
  - intros Hrun. exact (Hk None I _ w' r Hrun).
Qed.

Lemma keeps_listing_lines (f : ofstream) (heads : list label)
    (partners : label -> list label) :
  elsewhere p f ->
  keeps_file p
    (foreach heads (fun head =>
       step put f (show_label env head);
       step put f tab;
       step foreach (partners head) (fun l =>
              step put f (show_label env l);
              put f tab);
       put (ImageStack := ImageStack) f endl)).
Proof.
  intros Hf. apply keeps_foreach. intros head.
  repeat (apply keeps_bind || apply keeps_put || apply keeps_foreach || intros ?);
    exact Hf.
Qed.

Lemma keeps_label_lines (f : ofstream) (ls : list label) :
  elsewhere p f ->
  keeps_file p
    (foreach ls (fun l =>
       step put f (show_label env l);
       put (ImageStack := ImageStack) f endl)).
Proof.
  intros Hf. apply keeps_foreach. intros l.
  apply keeps_bind; [| intros _]; apply keeps_put; exact Hf.
Qed.

Lemma keeps_write_listings (errors : TolerantEditDistanceErrors label) :
  ~ In p (map (reportPath env opts) ["splits"; "merges"; "fps"; "fns"]) ->
  keeps_file p (write_listings env opts errors).
Proof.
  cbn [map In]. intros Hne. unfold write_listings.
  apply keeps_open_trunc; [intros H; apply Hne; rewrite H; auto 10 |].
  intros splitFile Hsplit.
  apply keeps_bind; [now apply keeps_listing_lines |]. intros _.
  apply keeps_open_trunc; [intros H; apply Hne; rewrite H; auto 10 |].
  intros mergeFile Hmerge.
  apply keeps_bind; [now apply keeps_listing_lines |]. intros _.
  destruct (hasBackgroundLabel errors); [| apply keeps_ret].
  apply keeps_open_trunc; [intros H; apply Hne; rewrite H; auto 10 |].
  intros fpFile Hfp.
  apply keeps_bind; [now apply keeps_label_lines |]. intros _.
  apply keeps_open_trunc; [intros H; apply Hne; rewrite H; auto 10 |].
  intros fnFile Hfn.
  now apply keeps_label_lines.
Qed.

Lemma keeps_text_line (f : ofstream) {A} (name : string) (r : exn + string) (a : A) :
  elsewhere p f ->
  keeps_file p
    (do reportText <- getOutput (ImageStack := ImageStack) name r;
     step put f reportText;
     step put f endl;
     ret a).
Proof.
  intros Hf. apply keeps_bind; [apply keeps_getOutput |]. intros text.
  apply keeps_bind; [now apply keeps_put |]. intros _.
  apply keeps_bind; [now apply keeps_put |]. intros _. apply keeps_ret.
Qed.

Lemma keeps_header_run parameters :
  p <> asString (optionPlotFile opts) ->
  keeps_file p (header_run env opts parameters).
Proof.
  intros Hne. unfold header_run. apply keeps_open_app; [exact Hne |].
  intros f Hf. now apply keeps_text_line.
Qed.

Lemma keeps_write_plot_line parameters gt rec :
  (isSet (optionPlotFile opts) = true -> p <> asString (optionPlotFile opts)) ->
  keeps_file p (write_plot_line env opts parameters gt rec).
Proof.
  intros Hne. unfold write_plot_line. apply keeps_when. intros Hset.
  apply keeps_open_app; [auto |]. intros f Hf.
  apply keeps_bind; [apply keeps_getOutput |]. intros text.
  apply keeps_bind; [| intros _]; now apply keeps_put.
Qed.

Lemma keeps_write_error_files parameters gt rec :
  (isSet (optionTedErrorFiles opts) = true ->
   ~ In p (map (reportPath env opts) ["splits"; "merges"; "fps"; "fns"])) ->
  keeps_file p (write_error_files env opts parameters gt rec).
Proof.
  intros Hne. unfold write_error_files. apply keeps_when. intros Hset.
  apply keeps_bind; [apply keeps_getOutput |]. intros errors.
  apply keeps_write_listings. auto.
Qed.

Lemma keeps_save_corrected parameters gt rec :
  keeps_file p (save_corrected env opts parameters gt rec).
Proof.
  unfold save_corrected. apply keeps_try.
  apply keeps_bind; [apply keeps_getOutput |]. intros corrected.
  unfold write_stack. apply keeps_bind; [apply keeps_tell |]. intros _.
  apply keeps_unchanged. unfold effect. now intros w w' r [= <- _].
Qed.

Lemma keeps_write_report parameters gt rec :
  keeps_file p (write_report env parameters gt rec).
Proof.
  unfold write_report. apply keeps_bind; [apply keeps_getOutput |]. intros text.
  apply keeps_unchanged. unfold effect. now intros w w' r [= <- _].
Qed.

Lemma keeps_setup_inputs : keeps_file p (setup_inputs env opts).
Proof.
  apply keeps_unchanged. intros w w' r H.
  exact (proj1 (setup_inputs_files env opts w w' r H)).
Qed.

Lemma keeps_main_try :
  ~ In p (output_files env opts) -> keeps_file p (main_try env opts).
Proof.
  unfold output_files, main_try. destruct (isSet (optionPlotFileHeader opts)).
  - cbn [In]. intros Hne. apply keeps_header_run.
    intros H. apply Hne. rewrite H. auto.
  - rewrite in_app_iff. intros Hne.
    apply keeps_bind; [apply keeps_setup_inputs |]. intros inputs. cbv zeta.
    apply keeps_bind; [apply keeps_save_corrected |]. intros _.
    apply keeps_bind; [apply keeps_write_report |]. intros _.
    apply keeps_bind.
    { apply keeps_write_error_files. intros Hset. rewrite Hset in Hne. tauto. }
    intros _. apply keeps_bind.
    { apply keeps_write_plot_line. intros Hset. rewrite Hset in Hne.
      cbn [In] in Hne. intros H. apply Hne. rewrite H. auto. }
    intros _. apply keeps_ret.
Qed.
End Frame.

(** X7. Whatever happens in a run, [main] changes no text file other than
    the ones it opens: the plot file in a header-only run; otherwise the
    plot file when one is given and the splits, merges, fps and fns
    listings when the listings are requested.  Every other file is
    afterwards what it was, also when the run ends in the handler. *)
Theorem main_changes_only_its_output_files
    {ImageStack label : Type} (env : Env ImageStack label) (opts : Options)
    (w : World ImageStack) (p : string) :
  ~ In p (output_files env opts) ->
  files (fst (main env opts w)) !! p = files w !! p.
Proof.
  intros Hne. unfold main.
  destruct (main_try env opts w) as [w' [[e|what]|status]] eqn:Hrun; cbn [fst];
    exact (keeps_main_try env opts p Hne w w' _ Hrun).
Qed.

Lemma main_changes_only_its_output_files_witness :
  files (fst (main (example_env (voxel_config 0 1 10 true) square_gt square_rec)
                (example_options false true) example_world)) !! "groundtruth/notes.txt"
  = files example_world !! "groundtruth/notes.txt".
Proof.
  apply (main_changes_only_its_output_files
           (example_env (voxel_config 0 1 10 true) square_gt square_rec)
           (example_options false true) example_world "groundtruth/notes.txt").
  vm_compute. intuition discriminate.
Defined.

(** ** The four listings *)

Section Listing_paths.
Context {ImageStack label : Type}.
Variable env : Env ImageStack label.
Variable opts : Options.

(** What the four listing files hold once the listings are written on top
    of [fs], when their paths differ: a listing whose stream opened holds
    its text, one whose stream did not open is what it was. *)
Lemma listing_files_lookup (errors : TolerantEditDistanceErrors label)
    (fs : gmap string string) :
  NoDup (reportPath env opts <$> ["splits"; "merges"; "fps"; "fns"]) ->
  let fs' := listing_files env opts errors fs in
  let holds type text :=
    fs' !! reportPath env opts type
    = if can_open env (reportPath env opts type) then Some text
      else fs !! reportPath env opts type in
  holds "splits" (splits_listing env errors)
  /\ holds "merges" (merges_listing env errors)
  /\ (if hasBackgroundLabel errors
      then holds "fps" (label_listing env (getFalsePositives errors))
           /\ holds "fns" (label_listing env (getFalseNegatives errors))
      else fs' !! reportPath env opts "fps" = fs !! reportPath env opts "fps"
           /\ fs' !! reportPath env opts "fns" = fs !! reportPath env opts "fns").
Proof.
  intros Hnd. cbv zeta. cbn [fmap list_fmap] in Hnd.
  rewrite !NoDup_cons, !not_elem_of_cons in Hnd.
  destruct Hnd as ((Hsm & Hsp & Hsn & _) & (Hmp & Hmn & _) & (Hpn & _) & _).
  unfold listing_files, fp_fn_files, split_merge_files, write_file.
  destruct (hasBackgroundLabel errors);
    destruct (can_open env (reportPath env opts "splits"));
    destruct (can_open env (reportPath env opts "merges"));
    try destruct (can_open env (reportPath env opts "fps"));
    try destruct (can_open env (reportPath env opts "fns"));
    repeat split;
    repeat (rewrite lookup_insert_eq || (rewrite lookup_insert_ne by congruence));
    reflexivity.
Qed.
End Listing_paths.

Lemma count_endl_lines {A} (f : A -> string) (l : list A) :
  (forall x, count_endl (f x) = 1) -> count_endl (text_of (map f l)) = length l.
Proof.
  intros H. induction l as [|x l IH]; [reflexivity |].
  cbn [map text_of fold_right length]. fold (text_of (map f l)).
  now rewrite count_endl_app, H, IH.
Qed.

Lemma count_endl_none {A} (f : A -> string) (l : list A) :
  (forall x, count_endl (f x) = 0) -> count_endl (text_of (map f l)) = 0.
Proof.
  intros H. induction l as [|x l IH]; [reflexivity |].
  cbn [map text_of fold_right]. fold (text_of (map f l)).
  now rewrite count_endl_app, H, IH.
Qed.

(** X9. When the paths of the four listings differ from each other, no
    listing overwrites another: after the listing block the splits and the
    merges file each hold their own listing if their stream opened, and
    are what they were if it did not; with a background label the same
    holds of the fps and fns files, and without one these two are what
    they were. *)
Theorem listings_do_not_overwrite_each_other
    {ImageStack label : Type} (env : Env ImageStack label) (opts : Options)
    (errors : TolerantEditDistanceErrors label) (w : World ImageStack) :
  NoDup (reportPath env opts <$> ["splits"; "merges"; "fps"; "fns"]) ->
  let fs' := files (fst (write_listings env opts errors w)) in
  let holds type text :=
    fs' !! reportPath env opts type
    = if can_open env (reportPath env opts type) then Some text
      else files w !! reportPath env opts type in
  holds "splits" (splits_listing env errors)
  /\ holds "merges" (merges_listing env errors)
  /\ (if hasBackgroundLabel errors
      then holds "fps" (label_listing env (getFalsePositives errors))
           /\ holds "fns" (label_listing env (getFalseNegatives errors))
      else fs' !! reportPath env opts "fps" = files w !! reportPath env opts "fps"
           /\ fs' !! reportPath env opts "fns" = files w !! reportPath env opts "fns").
Proof.
  intros Hnd. cbv zeta. rewrite write_listings_files. cbn [fst files set_files].
  exact (listing_files_lookup env opts errors (files w) Hnd).
Qed.

Lemma listings_do_not_overwrite_witness :
  let cfg := voxel_config 0 1 10 false in
  let env := example_env cfg stray_gt stray_rec in
  let opts := example_options false true in
  let errors := tedErrors (ErrorClassifier cfg (overlap_graph cfg stray_gt stray_rec)
                             (region_size stray_gt) (region_size stray_rec)) in
  let fs' := files (fst (write_listings env opts errors example_world)) in
  fs' !! "out/reconstruction.splits.data" = Some ""
  /\ fs' !! "out/reconstruction.fps.data" = None.
Proof.
  cbv zeta.
  destruct (listings_do_not_overwrite_each_other
              (example_env (voxel_config 0 1 10 false) stray_gt stray_rec)
              (example_options false true)
              (tedErrors (ErrorClassifier (voxel_config 0 1 10 false)
                            (overlap_graph (voxel_config 0 1 10 false) stray_gt stray_rec)
                            (region_size stray_gt) (region_size stray_rec)))
              example_world ltac:(refine (bool_decide_unpack _ _); vm_compute; exact I))
    as (Hsplits & _ & Hfps & _).
  split; [exact Hsplits | exact Hfps].
Defined.

(** X10. When the paths of the four listings differ from each other and
    no rendered label contains an end of line, a listing file whose stream
    opened has one line per entry: the splits file one line per split
    label and the merges file one line per merge label, whatever the number
    of partners; with a background label the fps and fns files one line
    per false positive and per false negative. *)
Theorem listings_have_one_line_per_entry
    {ImageStack label : Type} (env : Env ImageStack label) (opts : Options)
    (errors : TolerantEditDistanceErrors label) (w : World ImageStack) :
  NoDup (reportPath env opts <$> ["splits"; "merges"; "fps"; "fns"]) ->
  (forall l, count_endl (show_label env l) = 0) ->
  let lines type :=
    count_endl (default "" (files (fst (write_listings env opts errors w))
                              !! reportPath env opts type)) in
  let opens type := can_open env (reportPath env opts type) = true in
  (opens "splits" -> lines "splits" = length (getSplitLabels errors))
  /\ (opens "merges" -> lines "merges" = length (getMergeLabels errors))
  /\ (hasBackgroundLabel errors = true ->
      (opens "fps" -> lines "fps" = length (getFalsePositives errors))
      /\ (opens "fns" -> lines "fns" = length (getFalseNegatives errors))).
Proof.
  intros Hnd Hshow. cbv zeta. rewrite write_listings_files. cbn [fst files set_files].
  destruct (listing_files_lookup env opts errors (files w) Hnd)
    as (Hsplits & Hmerges & Hbg).
  assert (forall head partners, count_endl (listing_line env head partners) = 1) as Hline.
  { intros head partners. unfold listing_line. rewrite !count_endl_app, Hshow.
    rewrite count_endl_none by (intros l; now rewrite count_endl_app, Hshow).
    reflexivity. }
  assert (forall ls, count_endl (label_listing env ls) = length ls) as Hlabels.
  { intros ls. unfold label_listing. apply count_endl_lines.
    intros l. now rewrite count_endl_app, Hshow. }
  split; [| split].
  - intros Hopen. rewrite Hsplits, Hopen. cbn [default].
    unfold splits_listing. apply count_endl_lines. intros g. apply Hline.
  - intros Hopen. rewrite Hmerges, Hopen. cbn [default].
    unfold merges_listing. apply count_endl_lines. intros r. apply Hline.
  - intros Hhas. rewrite Hhas in Hbg. destruct Hbg as [Hfps Hfns]. split.
    + intros Hopen. rewrite Hfps, Hopen. cbn [default]. apply Hlabels.
    + intros Hopen. rewrite Hfns, Hopen. cbn [default]. apply Hlabels.
Qed.

Lemma pretty_N_go_count_endl (x : N) (s : string) :
  count_endl (pretty_N_go x s) = count_endl s.
Proof.
  revert s. induction (N.lt_wf_0 x) as [x _ IH]. intros s.
  destruct (decide (0 < x)%N) as [Hpos|Hzero].
  - rewrite pretty_N_go_step by exact Hpos.
    rewrite IH by (apply N.div_lt; [exact Hpos | reflexivity]).
    unfold pretty_N_char. repeat case_match; reflexivity.
  - replace x with 0%N by lia. now rewrite pretty_N_go_0.
Qed.

Lemma pretty_nat_count_endl (n : nat) : count_endl (pretty n) = 0.
Proof.
  unfold pretty, pretty_nat, pretty, pretty_N.
  destruct (decide (N.of_nat n = 0%N)); [reflexivity |].
  apply pretty_N_go_count_endl.
Qed.

Lemma listings_have_one_line_per_entry_witness :
  let cfg := voxel_config 0 1 10 true in
  let env := example_env cfg square_gt square_rec in
  let opts := example_options false true in
  let errors := tedErrors (ErrorClassifier cfg (overlap_graph cfg square_gt square_rec)
                             (region_size square_gt) (region_size square_rec)) in
  let lines type :=
    count_endl (default "" (files (fst (write_listings env opts errors example_world))
                              !! reportPath env opts type)) in
  lines "splits" = 1 /\ lines "merges" = 0 /\ lines "fps" = 0 /\ lines "fns" = 0.
Proof.
  cbv zeta.
  destruct (listings_have_one_line_per_entry
              (example_env (voxel_config 0 1 10 true) square_gt square_rec)
              (example_options false true)
              (tedErrors (ErrorClassifier (voxel_config 0 1 10 true)
                            (overlap_graph (voxel_config 0 1 10 true) square_gt square_rec)
                            (region_size square_gt) (region_size square_rec)))
              example_world ltac:(refine (bool_decide_unpack _ _); vm_compute; exact I)
              pretty_nat_count_endl)
    as (Hsplits & Hmerges & Hbg).
  destruct (Hbg eq_refl) as [Hfps Hfns].
  split; [exact (Hsplits eq_refl) |
    split; [exact (Hmerges eq_refl) | split; [exact (Hfps eq_refl) | exact (Hfns eq_refl)]]].
Defined.

(** ** A text that cannot be rendered *)

Open Scope ted_scope.

(** The plot stream is opened before the text is requested: when the
    request fails the stream has been opened and nothing written. *)
Lemma failed_text_line {ImageStack label : Type} (env : Env ImageStack label)
    (path name : string) (e : exn) (w : World ImageStack) :
  (do f <- open_app env path;
   do reportText <- getOutput name (inl e);
   step put f reportText;
   put f endl) w
  = (add_event (EvGetOutput name)
       (if can_open env path
        then set_files (<[path := file_content (files w) path]> (files w)) w
        else w), inl (Exception e)).
Proof.
  unfold open_app, getOutput, raised, tell, lift, effect, bind.
  destruct (can_open env path); reflexivity.
Qed.

Lemma opened_file_content (fs : gmap string string) (path p : string) :
  file_content (<[path := file_content fs path]> fs) p = file_content fs p.
Proof.
  unfold file_content. destruct (decide (p = path)) as [->|Hne].
  - now rewrite lookup_insert_eq.
  - now rewrite lookup_insert_ne by congruence.
Qed.

(** X11. Both plot-file blocks open the stream before they request the
    text.  When the request raises an exception, it is handled by [main],
    the content of every file is what it was before the block, nothing
    having been written, yet a plot file that did not exist has been
    created (empty) if its stream opens.  This holds for the header-only
    run and for the single-line report at the end of a full run. *)
Theorem failed_text_request_leaves_an_unwritten_plot_file
    {ImageStack label : Type} (env : Env ImageStack label) (opts : Options)
    (w : World ImageStack) (e : exn) :
  let plot := asString (optionPlotFile opts) in
  let parameters := setupParameters opts in
  let unwritten (w0 w' : World ImageStack) :=
    handled w' = (handled w0 ++ [e])%list
    /\ (forall p, file_content (files w') p = file_content (files w0) p)
    /\ (forall p, p <> plot -> files w' !! p = files w0 !! p)
    /\ (can_open env plot = true -> is_Some (files w' !! plot)) in
  (isSet (optionPlotFileHeader opts) = true ->
   out_header (report env) parameters = inl e ->
   unwritten w (fst (main env opts w)))
  /\
  (forall w1 w2 w3 w4 gt rec,
     isSet (optionPlotFileHeader opts) = false ->
     setup_inputs env opts w = (w1, inr (gt, rec)) ->
     save_corrected env opts parameters gt rec w1 = (w2, inr tt) ->
     write_report env parameters gt rec w2 = (w3, inr tt) ->
     write_error_files env opts parameters gt rec w3 = (w4, inr tt) ->
     isSet (optionPlotFile opts) = true ->
     out_line (report env) parameters gt rec = inl e ->
     unwritten w4 (fst (main env opts w))).
Proof.
  cbv zeta.
  assert (forall name (w0 : World ImageStack),
            let w' := add_handled e
                        (add_event (EvGetOutput name)
                           (if can_open env (asString (optionPlotFile opts))
                            then set_files
                                   (<[asString (optionPlotFile opts)
                                        := file_content (files w0)
                                             (asString (optionPlotFile opts))]> (files w0)) w0
                            else w0)) in
            handled w' = (handled w0 ++ [e])%list
            /\ (forall p, file_content (files w') p = file_content (files w0) p)
            /\ (forall p, p <> asString (optionPlotFile opts) ->
                          files w' !! p = files w0 !! p)
            /\ (can_open env (asString (optionPlotFile opts)) = true ->
                is_Some (files w' !! asString (optionPlotFile opts)))) as Hunwritten.
  { intros name w0. cbv zeta.
    destruct (can_open env (asString (optionPlotFile opts))); cbn;
      repeat split; try reflexivity; try discriminate.
    - intros p. apply opened_file_content.
    - intros p Hne. now rewrite lookup_insert_ne by congruence.
    - intros _. rewrite lookup_insert_eq. eauto. }
  split.
  - intros Hheader Hh.
    assert (main env opts w
            = (add_handled e
                 (add_event (EvGetOutput "error report header")
                    (if can_open env (asString (optionPlotFile opts))
                     then set_files
                            (<[asString (optionPlotFile opts)
                                 := file_content (files w)
                                      (asString (optionPlotFile opts))]> (files w)) w
                     else w)), Exit 0%Z)) as ->;
      [| cbn [fst]; apply Hunwritten].
    unfold main, main_try. rewrite Hheader. unfold header_run.
    assert ((do f <- open_app env (asString (optionPlotFile opts));
             do reportText <- getOutput "error report header"
                                (out_header (report env) (setupParameters opts));
             step put f reportText;
             step put f endl;
             ret 0%Z) w
            = (add_event (EvGetOutput "error report header")
                 (if can_open env (asString (optionPlotFile opts))
                  then set_files
                         (<[asString (optionPlotFile opts)
                              := file_content (files w)
                                   (asString (optionPlotFile opts))]> (files w)) w
                  else w), inl (Exception e))) as ->.
    { rewrite Hh. unfold open_app, getOutput, raised, tell, lift, effect, bind.
      destruct (can_open env (asString (optionPlotFile opts))); reflexivity. }
    reflexivity.
  - intros w1 w2 w3 w4 gt rec Hheader Hsetup Hsave Hreport Herrors Hplot Hline.
    assert (main env opts w
            = (add_handled e
                 (add_event (EvGetOutput "error report")
                    (if can_open env (asString (optionPlotFile opts))
                     then set_files
                            (<[asString (optionPlotFile opts)
                                 := file_content (files w4)
                                      (asString (optionPlotFile opts))]> (files w4)) w4
                     else w4)), Exit 0%Z)) as ->.
    { unfold main, main_try. rewrite Hheader.
      unfold bind at 1. rewrite Hsetup. cbv beta iota. cbn [fst snd].
      unfold bind at 1. rewrite Hsave. cbv beta iota.
      unfold bind at 1. rewrite Hreport. cbv beta iota.
      unfold bind at 1. rewrite Herrors. cbv beta iota.
      unfold bind at 1. unfold write_plot_line, when. rewrite Hplot, Hline.
      now rewrite failed_text_line. }
    cbn [fst]. apply Hunwritten.
Qed.

Lemma failed_text_request_witness :
  let header := fst (main (example_env_without_texts square_gt square_rec)
                       (example_options true true) example_world) in
  let full := fst (main (example_env_without_texts square_gt square_rec)
                     (example_options false true) example_world) in
  handled header = [OtherError "no header"]
  /\ file_content (files header) "plot.dat" = "TED_SPLITS" +:+ endl
  /\ handled full = [OtherError "no report"]
  /\ file_content (files full) "plot.dat" = "TED_SPLITS" +:+ endl.
Proof.
  cbv zeta.
  destruct (failed_text_request_leaves_an_unwritten_plot_file
              (example_env_without_texts square_gt square_rec)
              (example_options true true) example_world (OtherError "no header"))
    as [Hheader _].
  destruct (Hheader eq_refl eq_refl) as (Hh1 & Hh2 & _).
  destruct (failed_text_request_leaves_an_unwritten_plot_file
              (example_env_without_texts square_gt square_rec)
              (example_options false true) example_world (OtherError "no report"))
    as [_ Hfull].
  pose (env := example_env_without_texts square_gt square_rec).
  pose (opts := example_options false true).
  pose (w1 := fst (setup_inputs env opts example_world)).
  pose (w2 := fst (save_corrected env opts (setupParameters opts) square_gt square_rec w1)).
  pose (w3 := fst (write_report env (setupParameters opts) square_gt square_rec w2)).
  pose (w4 := fst (write_error_files env opts (setupParameters opts) square_gt square_rec w3)).
  destruct (Hfull w1 w2 w3 w4 square_gt square_rec
              eq_refl eq_refl eq_refl eq_refl eq_refl eq_refl eq_refl)
    as (Hf1 & Hf2 & _).
  split; [exact Hh1 |].
  split; [exact (Hh2 "plot.dat") |].
  split; [exact Hf1 | exact (Hf2 "plot.dat")].
Defined.

(** ** Extracting and exporting the ground truth *)

Lemma readImageStackFromOption_stack_dirs {ImageStack label : Type}
    (env : Env ImageStack label) (option : string) (w : World ImageStack) :
  stack_dirs (fst (readImageStackFromOption env option w)) = stack_dirs w
  /\ log (fst (readImageStackFromOption env option w)) = log w.
Proof.
  unfold readImageStackFromOption, tell, lift, effect, throw, bind.
  destruct (find_first_of option colon); [destruct (have_hdf5 env) |]; cbn; auto.
Qed.

(** X12. Once both stacks are read, the report's ground truth is the read
    stack, or the extracted labelling when extractGroundTruthLabels is
    given.  The only image stack written while the inputs are wired is
    that labelling, to the directory "groundtruth", and only when both
    extractGroundTruthLabels and exportGroundTruth are given:
    exportGroundTruth alone has no effect. *)
Theorem ground_truth_is_exported_only_when_extracted
    {ImageStack label : Type} (env : Env ImageStack label) (opts : Options)
    (w wa wb : World ImageStack) (groundTruth reconstruction : ImageStack) :
  readImageStackFromOption env (asString (optionGroundTruth opts)) w
    = (wa, inr groundTruth) ->
  readImageStackFromOption env (asString (optionReconstruction opts)) wa
    = (wb, inr reconstruction) ->
  let extracted := extract_labels env groundTruth in
  let extract := isSet (optionExtractGroundTruthLabels opts) in
  let export := isSet (optionExportGroundtruth opts) in
  snd (setup_inputs env opts w)
    = inr (if extract then extracted else groundTruth, reconstruction)
  /\ stack_dirs (fst (setup_inputs env opts w))
     = (stack_dirs w ++ if extract && export then [("groundtruth", extracted)] else [])%list
  /\ (extract = false ->
      log (fst (setup_inputs env opts w)) = log w
      /\ setup_inputs env opts w
         = (add_event (EvSetInput "ground truth")
              (add_event (EvSetInput "reconstruction") wb), inr (groundTruth, reconstruction))).
Proof.
  intros Hgt Hrec. cbv zeta.
  pose proof (readImageStackFromOption_stack_dirs env
                (asString (optionGroundTruth opts)) w) as [Hs1 Hl1].
  pose proof (readImageStackFromOption_stack_dirs env
                (asString (optionReconstruction opts)) wa) as [Hs2 Hl2].
  rewrite Hgt in Hs1, Hl1. rewrite Hrec in Hs2, Hl2. cbn [fst] in *.
  unfold setup_inputs, bind. rewrite Hgt, Hrec.
  unfold write_stack, when, tell, effect, bind, ret.
  destruct (isSet (optionExtractGroundTruthLabels opts));
    [destruct (isSet (optionExportGroundtruth opts)) |]; cbn;
    rewrite ?app_nil_r; repeat split; try congruence; discriminate.
Qed.

Lemma ground_truth_export_witness :
  let env := example_env (voxel_config 0 1 10 true) square_gt square_rec in
  stack_dirs (fst (setup_inputs env (example_extract_options true true) example_world))
    = [("groundtruth", square_gt)]
  /\ stack_dirs (fst (setup_inputs env (example_extract_options false true) example_world))
     = [].
Proof.
  cbv zeta. split.
  - exact (proj1 (proj2 (ground_truth_is_exported_only_when_extracted
             (example_env (voxel_config 0 1 10 true) square_gt square_rec)
             (example_extract_options true true) example_world
             (add_event (EvReadStack "groundtruth") example_world)
             (add_event (EvReadStack "reconstruction")
                (add_event (EvReadStack "groundtruth") example_world))
             square_gt square_rec eq_refl eq_refl))).
  - exact (proj1 (proj2 (ground_truth_is_exported_only_when_extracted
             (example_env (voxel_config 0 1 10 true) square_gt square_rec)
             (example_extract_options false true) example_world
             (add_event (EvReadStack "groundtruth") example_world)
             (add_event (EvReadStack "reconstruction")
                (add_event (EvReadStack "groundtruth") example_world))
             square_gt square_rec eq_refl eq_refl))).
Defined.

(** ** The image stacks a run writes *)

Section Stacks_written.
Context {ImageStack label : Type}.
Variable env : Env ImageStack label.
Variable opts : Options.

Lemma setup_inputs_stacks (w w' : World ImageStack) r :
  setup_inputs env opts w = (w', r) ->
  stack_dirs w' = stack_dirs w
  \/ exists s, stack_dirs w' = (stack_dirs w ++ [("groundtruth", s)])%list.
Proof.
  unfold setup_inputs, bind.
  pose proof (readImageStackFromOption_stack_dirs env
                (asString (optionGroundTruth opts)) w) as [Hs1 _].
  destruct (readImageStackFromOption env (asString (optionGroundTruth opts)) w)
    as [wa [e|groundTruth]]; cbn [fst] in *.
  { intros [= <- <-]. now left. }
  pose proof (readImageStackFromOption_stack_dirs env
                (asString (optionReconstruction opts)) wa) as [Hs2 _].
  destruct (readImageStackFromOption env (asString (optionReconstruction opts)) wa)
    as [wb [e'|reconstruction]]; cbn [fst] in *.
  { intros [= <- <-]. left. congruence. }
  unfold write_stack, when, tell, effect, bind, ret.
  destruct (isSet (optionExtractGroundTruthLabels opts));
    [destruct (isSet (optionExportGroundtruth opts)) |];
    cbn; intros [= <- <-]; cbn; rewrite Hs2, Hs1; eauto.
Qed.

Lemma save_corrected_stacks parameters gt rec (w w' : World ImageStack) r :
  save_corrected env opts parameters gt rec w = (w', r) ->
  stack_dirs w' = stack_dirs w
  \/ exists s,
       stack_dirs w'
       = (stack_dirs w
            ++ [(buildCorrectedPath env (asString (optionTedErrorFiles opts))
                   (asString (optionReconstruction opts)), s)])%list.
Proof.
  unfold save_corrected, try_NoSuchOutput, getOutput, raised, write_stack, tell, lift,
    effect, bind.
  destruct (out_corrected (report env) parameters gt rec) as [e|corrected]; cbn.
  - destruct (is_NoSuchOutput e); intros [= <- <-]; now left.
  - intros [= <- <-]. cbn. eauto.
Qed.

Lemma write_report_stacks parameters gt rec (w w' : World ImageStack) r :
  write_report env parameters gt rec w = (w', r) -> stack_dirs w' = stack_dirs w.
Proof.
  unfold write_report, getOutput, raised, tell, lift, effect, bind.
  destruct (out_human (report env) parameters gt rec); cbn;
    intros [= <- <-]; reflexivity.
Qed.

Lemma write_error_files_stacks parameters gt rec (w w' : World ImageStack) r :
  write_error_files env opts parameters gt rec w = (w', r) ->
  stack_dirs w' = stack_dirs w.
Proof.
  unfold write_error_files, when.
  destruct (isSet (optionTedErrorFiles opts)); [| intros [= <- <-]; reflexivity].
  unfold getOutput, raised, tell, lift, effect, bind.
  destruct (out_errors (report env) parameters gt rec) as [e|errors]; cbn.
  - intros [= <- <-]. reflexivity.
  - rewrite write_listings_files. intros [= <- <-]. reflexivity.
Qed.

Lemma write_plot_line_stacks parameters gt rec (w w' : World ImageStack) r :
  write_plot_line env opts parameters gt rec w = (w', r) ->
  stack_dirs w' = stack_dirs w.
Proof.
  unfold write_plot_line, when, open_app, getOutput, raised, tell, lift, put, effect, bind, ret.
  destruct (isSet (optionPlotFile opts)); [| intros [= <- <-]; reflexivity].
  destruct (can_open env (asString (optionPlotFile opts)));
    destruct (out_line (report env) parameters gt rec); cbn;
    intros [= <- <-]; reflexivity.
Qed.

Lemma main_try_stacks (w w' : World ImageStack) r :
  main_try env opts w = (w', r) ->
  exists l,
    stack_dirs w' = (stack_dirs w ++ l)%list
    /\ length l <= 2
    /\ (isSet (optionPlotFileHeader opts) = true -> l = [])
    /\ forall d s, In (d, s) l ->
         d = "groundtruth"
         \/ d = buildCorrectedPath env (asString (optionTedErrorFiles opts))
                  (asString (optionReconstruction opts)).
Proof.
  unfold main_try. destruct (isSet (optionPlotFileHeader opts)).
  { intros H.
    pose proof (header_run_trace env opts (setupParameters opts) w) as (_ & Hs & _).
    rewrite H in Hs. cbn [fst] in Hs. exists [].
    rewrite app_nil_r. repeat split; auto. intros d s []. }
  assert (forall w1 w2 : World ImageStack,
            (stack_dirs w1 = stack_dirs w
             \/ exists s, stack_dirs w1 = (stack_dirs w ++ [("groundtruth", s)])%list) ->
            (stack_dirs w2 = stack_dirs w1
             \/ exists s,
                  stack_dirs w2
                  = (stack_dirs w1
                       ++ [(buildCorrectedPath env (asString (optionTedErrorFiles opts))
                              (asString (optionReconstruction opts)), s)])%list) ->
            exists l,
              stack_dirs w2 = (stack_dirs w ++ l)%list
              /\ length l <= 2
              /\ (false = true -> l = [])
              /\ forall d s, In (d, s) l ->
                   d = "groundtruth"
                   \/ d = buildCorrectedPath env (asString (optionTedErrorFiles opts))
                            (asString (optionReconstruction opts))) as Hboth.
  { intros w1 w2 [H1|[s1 H1]] [H2|[s2 H2]]; rewrite H2, H1.
    - exists []. rewrite app_nil_r. repeat split; auto; try discriminate. intros d s [].
    - eexists [_]. repeat split; auto; try discriminate.
      intros d s [[= <- _]|[]]. now right.
    - eexists [_]. repeat split; auto; try discriminate.
      intros d s [[= <- _]|[]]. now left.
    - eexists [_; _]. rewrite <- app_assoc. repeat split; auto; try discriminate.
      intros d s [[= <- _]|[[= <- _]|[]]]; auto. }
  unfold bind.
  destruct (setup_inputs env opts w) as [w1 [e|inputs]] eqn:Hsetup.
  { intros [= <- <-]. apply (Hboth w1 w1); [| now left].
    exact (setup_inputs_stacks _ _ _ Hsetup). }
  destruct (save_corrected env opts _ _ _ w1) as [w2 [e|[]]] eqn:Hsave.
  { intros [= <- <-]. apply (Hboth w1 w2).
    - exact (setup_inputs_stacks _ _ _ Hsetup).
    - exact (save_corrected_stacks _ _ _ _ _ _ Hsave). }
  assert (exists l,
            stack_dirs w2 = (stack_dirs w ++ l)%list
            /\ length l <= 2
            /\ (false = true -> l = [])
            /\ forall d s, In (d, s) l ->
                 d = "groundtruth"
                 \/ d = buildCorrectedPath env (asString (optionTedErrorFiles opts))
                          (asString (optionReconstruction opts))) as Hw2.
  { apply (Hboth w1 w2).
    - exact (setup_inputs_stacks _ _ _ Hsetup).
    - exact (save_corrected_stacks _ _ _ _ _ _ Hsave). }
  destruct (write_report env _ _ _ w2) as [w3 [e|[]]] eqn:Hreport.
  { intros [= <- <-]. rewrite (write_report_stacks _ _ _ _ _ _ Hreport). exact Hw2. }
  destruct (write_error_files env opts _ _ _ w3) as [w4 [e|[]]] eqn:Herrors.
  { intros [= <- <-]. rewrite (write_error_files_stacks _ _ _ _ _ _ Herrors),
      (write_report_stacks _ _ _ _ _ _ Hreport). exact Hw2. }
  destruct (write_plot_line env opts _ _ _ w4) as [w5 [e|[]]] eqn:Hplot.
  { intros [= <- <-]. rewrite (write_plot_line_stacks _ _ _ _ _ _ Hplot),
      (write_error_files_stacks _ _ _ _ _ _ Herrors),
      (write_report_stacks _ _ _ _ _ _ Hreport). exact Hw2. }
  unfold ret. intros [= <- <-].
  rewrite (write_plot_line_stacks _ _ _ _ _ _ Hplot),
    (write_error_files_stacks _ _ _ _ _ _ Herrors),
    (write_report_stacks _ _ _ _ _ _ Hreport). exact Hw2.
Qed.
End Stacks_written.

(** X13. A run of [main] writes at most two image stacks, and only to the
    directory "groundtruth" and to the corrected-reconstruction directory
    built from tedErrorFiles and the reconstruction's stem; the stacks
    written before the run are kept, and a header-only run writes none. *)
Theorem main_writes_at_most_two_image_stacks
    {ImageStack label : Type} (env : Env ImageStack label) (opts : Options)
    (w : World ImageStack) :
  exists l,
    stack_dirs (fst (main env opts w)) = (stack_dirs w ++ l)%list
    /\ length l <= 2
    /\ (isSet (optionPlotFileHeader opts) = true -> l = [])
    /\ forall d s, In (d, s) l ->
         d = "groundtruth"
         \/ d = buildCorrectedPath env (asString (optionTedErrorFiles opts))
                  (asString (optionReconstruction opts)).
Proof.
  unfold main.
  destruct (main_try env opts w) as [w' [[e|what]|status]] eqn:Hrun; cbn [fst];
    exact (main_try_stacks env opts w w' _ Hrun).
Qed.
